(** * libsvt_vp9: the SVT-VP9 encoder adapter of libavcodec

    A shallow embedding of [libavcodec/libsvt_vp9.c] and the properties of
    its end-of-stream flag, its error translation and its option copying.

    The adapter sits between two interfaces whose headers are not part of
    the file: the host framework (libavutil, libavcodec) and the encoder
    engine (EbSvtVp9Enc.h, EbSvtVp9ErrorCodes.h).  What the code uses of
    them (error codes, flag bits, the integer types of the engine's struct
    fields) is taken as a parameter, through the classes [HostFramework] and
    [EngineHeader]; the engine and the allocator answer through explicit
    environment records, and the calls to the engine and to the buffer pool
    are logged with their arguments. *)

From Stdlib Require Import ZArith List Bool Lia.
Import ListNotations.
Local Open Scope Z_scope.

(** ** C integer types *)

Module CInt.

Inductive ctype : Type :=
| int8_t | uint8_t | int16_t | uint16_t
| int32_t | uint32_t | int64_t | uint64_t.

Definition bits (t : ctype) : Z :=
  match t with
  | int8_t | uint8_t => 8
  | int16_t | uint16_t => 16
  | int32_t | uint32_t => 32
  | int64_t | uint64_t => 64
  end.

Definition is_signed (t : ctype) : bool :=
  match t with
  | int8_t | int16_t | int32_t | int64_t => true
  | _ => false
  end.

Definition min_val (t : ctype) : Z :=
  if is_signed t then - 2 ^ (bits t - 1) else 0.

Definition max_val (t : ctype) : Z :=
  if is_signed t then 2 ^ (bits t - 1) - 1 else 2 ^ bits t - 1.

(** Conversion of an integer value to type [t]: reduction modulo
    [2 ^ bits t], into the signed range for a signed type. *)
Definition cast (t : ctype) (v : Z) : Z :=
  if is_signed t
  then (v + 2 ^ (bits t - 1)) mod 2 ^ bits t - 2 ^ (bits t - 1)
  else v mod 2 ^ bits t.

Definition fits (t : ctype) (v : Z) : Prop := min_val t <= v <= max_val t.

(** The integer promotions and the usual arithmetic conversions, with a
    32-bit [int] and a 64-bit [size_t]. *)
Definition promote (t : ctype) : ctype :=
  match t with
  | int8_t | uint8_t | int16_t | uint16_t => int32_t
  | _ => t
  end.

Definition arith_type (t1 t2 : ctype) : ctype :=
  match promote t1, promote t2 with
  | uint64_t, _ | _, uint64_t => uint64_t
  | int64_t, _ | _, int64_t => int64_t
  | uint32_t, _ | _, uint32_t => uint32_t
  | _, _ => int32_t
  end.

(** [int], [size_t] and the operations on them the adapter uses. *)
Definition int : ctype := int32_t.
Definition size_t : ctype := uint64_t.

(** [a * b] for operands of types [t1] and [t2]: both are converted to the
    common type and the product is reduced into it. *)
Definition mul (t1 t2 : ctype) (a b : Z) : Z :=
  let t := arith_type t1 t2 in cast t (cast t a * cast t b).

Definition of_bool (b : bool) : Z := if b then 1 else 0.

End CInt.

Import CInt.

(** ** The host framework's interface *)

Inductive errno : Type := ENOMEM | EINVAL | EAGAIN.

(** Constants of libavutil/error.h, libavcodec/avcodec.h and
    libavcodec/packet.h.  The framework's error codes are negative. *)
Class HostFramework : Type := {
  AVERROR : errno -> Z;
  AVERROR_EOF : Z;
  AVERROR_EXTERNAL : Z;
  AVERROR_UNKNOWN : Z;
  AV_CODEC_FLAG_CLOSED_GOP : Z;
  AV_PKT_FLAG_KEY : Z;
  AV_PKT_FLAG_DISPOSABLE : Z;
  AV_PKT_FLAG_SVT_VP9_EXT_ON : Z;
  AV_PKT_FLAG_SVT_VP9_EXT_OFF : Z;
  AVERROR_negative : forall e, AVERROR e < 0;
  AVERROR_EOF_negative : AVERROR_EOF < 0;
  AVERROR_EXTERNAL_negative : AVERROR_EXTERNAL < 0;
  AVERROR_UNKNOWN_negative : AVERROR_UNKNOWN < 0
}.

Inductive AVPixelFormat : Type :=
| AV_PIX_FMT_NONE
| AV_PIX_FMT_YUV420P
| AV_PIX_FMT_YUV420P10LE
| AV_PIX_FMT_other (id : Z).

Inductive AVPictureType : Type :=
| AV_PICTURE_TYPE_NONE
| AV_PICTURE_TYPE_I
| AV_PICTURE_TYPE_P
| AV_PICTURE_TYPE_B
| AV_PICTURE_TYPE_S
| AV_PICTURE_TYPE_SI
| AV_PICTURE_TYPE_SP
| AV_PICTURE_TYPE_BI.

Record AVRational : Type := { num : Z; den : Z }.

(** ** The engine's interface *)

Inductive EbErrorType : Type :=
| EB_ErrorNone
| EB_ErrorInsufficientResources
| EB_ErrorUndefined
| EB_ErrorInvalidComponent
| EB_ErrorBadParameter
| EB_ErrorDestroyThreadFailed
| EB_ErrorSemaphoreUnresponsive
| EB_ErrorDestroySemaphoreFailed
| EB_ErrorCreateMutexFailed
| EB_ErrorMutexUnresponsive
| EB_ErrorDestroyMutexFailed
| EB_NoErrorEmptyQueue
| EB_ErrorOther (code : Z).   (* a value with no case label in this file *)

Inductive EbPictType : Type :=
| EB_P_PICTURE
| EB_B_PICTURE
| EB_I_PICTURE
| EB_IDR_PICTURE
| EB_NON_REF_PICTURE
| EB_INVALID_PICTURE
| EB_PICTURE_other (id : Z).

(** The integer fields of the engine's structs that the adapter touches. *)
Module Eb.

Inductive field : Type :=
(* EbSvtVp9EncConfiguration *)
| source_width | source_height
| enc_mode | level | rate_control_mode | tune | base_layer_switch_mode | qp
| target_bit_rate | intra_period
| frame_rate_numerator | frame_rate_denominator
| max_qp_allowed | min_qp_allowed
| intra_refresh_type | encoder_bit_depth
(* EbBufferHeaderType *)
| size | n_alloc_len | n_filled_len | n_tick_count | pts | dts | flags
(* EbSvtEncInput *)
| y_stride | cb_stride | cr_stride.

Definition field_eqb (f g : field) : bool :=
  match f, g with
  | source_width, source_width | source_height, source_height
  | enc_mode, enc_mode | level, level
  | rate_control_mode, rate_control_mode | tune, tune
  | base_layer_switch_mode, base_layer_switch_mode | qp, qp
  | target_bit_rate, target_bit_rate | intra_period, intra_period
  | frame_rate_numerator, frame_rate_numerator
  | frame_rate_denominator, frame_rate_denominator
  | max_qp_allowed, max_qp_allowed | min_qp_allowed, min_qp_allowed
  | intra_refresh_type, intra_refresh_type
  | encoder_bit_depth, encoder_bit_depth
  | size, size | n_alloc_len, n_alloc_len | n_filled_len, n_filled_len
  | n_tick_count, n_tick_count | pts, pts | dts, dts | flags, flags
  | y_stride, y_stride | cb_stride, cb_stride | cr_stride, cr_stride => true
  | _, _ => false
  end.

(** The integer fields of a struct, by name. *)
Definition ints : Type := field -> Z.

Definition zeroed : ints := fun _ => 0.

End Eb.

(** What the adapter takes from the engine's headers: the type of each
    struct field, the buffer flags, the size of the buffer header, and the
    enumerators that an [int] stored into an [EbErrorType] or [EbPictType]
    variable denotes ([EB_ErrorNone] is 0). *)
Class EngineHeader : Type := {
  field_type : Eb.field -> ctype;
  EB_BUFFERFLAG_EOS : Z;
  EB_BUFFERFLAG_SHOW_EXT : Z;
  sizeof_EbBufferHeaderType : Z;
  EbPictType_of_int : Z -> EbPictType;
  EbErrorType_of_int : Z -> EbErrorType;
  EbErrorType_of_int_zero :
    forall z, EbErrorType_of_int z = EB_ErrorNone <-> z = 0
}.

(** ** error_mapping *)

Section ErrorMapping.
Context `{HostFramework}.

(** The switch of [error_mapping].  A case that ends in [break] yields
    [err]; the case [EB_NoErrorEmptyQueue] has no [break] and runs on into
    the statements of the case [EB_ErrorNone] below it.  [err] is declared
    without a value and every path assigns it before it is read: the 0
    passed at the two entry points is never used. *)
Definition error_mapping (svt_ret : EbErrorType) : Z :=
  let case_EB_ErrorNone (err : Z) : Z :=
    let err := 0 in
    err in
  let case_EB_NoErrorEmptyQueue (err : Z) : Z :=
    let err := AVERROR EAGAIN in
    case_EB_ErrorNone err in
  match svt_ret with
  | EB_ErrorInsufficientResources =>
      AVERROR ENOMEM
  | EB_ErrorUndefined
  | EB_ErrorInvalidComponent
  | EB_ErrorBadParameter =>
      AVERROR EINVAL
  | EB_ErrorDestroyThreadFailed
  | EB_ErrorSemaphoreUnresponsive
  | EB_ErrorDestroySemaphoreFailed
  | EB_ErrorCreateMutexFailed
  | EB_ErrorMutexUnresponsive
  | EB_ErrorDestroyMutexFailed =>
      AVERROR_EXTERNAL
  | EB_NoErrorEmptyQueue =>
      case_EB_NoErrorEmptyQueue 0
  | EB_ErrorNone =>
      case_EB_ErrorNone 0
  | EB_ErrorOther _ =>
      AVERROR_UNKNOWN
  end.

End ErrorMapping.

(** ** Data *)

Definition ptr : Type := Z.
Definition NULL : ptr := 0.

Inductive EOS_STATUS : Type :=
| EOS_NOT_REACHED
| EOS_REACHED
| EOS_TOTRIGGER.

Definition EOS_STATUS_value (e : EOS_STATUS) : Z :=
  match e with
  | EOS_NOT_REACHED => 0
  | EOS_REACHED => 1
  | EOS_TOTRIGGER => 2
  end.

Definition EOS_STATUS_eqb (a b : EOS_STATUS) : bool :=
  EOS_STATUS_value a =? EOS_STATUS_value b.

(** The engine's configuration struct: its integer fields. *)
Definition EbSvtVp9EncConfiguration : Type := Eb.ints.

Record EbSvtEncInput : Type := {
  luma : ptr;
  cb : ptr;
  cr : ptr;
  strides : Eb.ints
}.

(** What the [p_buffer] of a buffer header points to: nothing, the picture
    descriptor of an input buffer, or the bytes of an output buffer. *)
Inductive buffer : Type :=
| no_buffer
| input_data (in_data : EbSvtEncInput)
| stream_data (bytes : list Z).

Record EbBufferHeaderType : Type := {
  hdr : Eb.ints;
  p_buffer : buffer;
  p_app_private : ptr;
  pic_type : EbPictType
}.

Record AVBufferRef : Type := { ref_data : list Z }.
Record AVBufferPool : Type := { pool_size : Z }.

Module AVFrame.
Record t : Type := {
  data : list ptr;
  linesize : list Z;
  pts : Z;
  pict_type : AVPictureType
}.
End AVFrame.

(** [data] points into the buffer of [buf]: both show the same bytes. *)
Module AVPacket.
Record t : Type := {
  buf : option AVBufferRef;
  data : list Z;
  size : Z;
  pts : Z;
  dts : Z;
  flags : Z
}.
End AVPacket.

Record SvtContext : Type := {
  enc_params : EbSvtVp9EncConfiguration;
  svt_handle : ptr;
  in_buf : option EbBufferHeaderType;
  raw_size : Z;
  pool : option AVBufferPool;
  eos_flag : EOS_STATUS;
  (* User options. *)
  enc_mode : Z;
  rc_mode : Z;
  tune : Z;
  qp : Z;
  forced_idr : Z;
  level : Z;
  base_layer_switch_mode : Z
}.

Record AVCodecContext : Type := {
  priv_data : SvtContext;
  width : Z;
  height : Z;
  pix_fmt : AVPixelFormat;
  bit_rate : Z;
  gop_size : Z;
  framerate : AVRational;
  time_base : AVRational;
  ticks_per_frame : Z;
  qmax : Z;
  qmin : Z;
  flags : Z
}.

(** Assignments to the fields of the adapter context. *)
Definition set_enc_params (c : SvtContext) (v : EbSvtVp9EncConfiguration) :=
  {| enc_params := v; svt_handle := svt_handle c; in_buf := in_buf c;
     raw_size := raw_size c; pool := pool c; eos_flag := eos_flag c;
     enc_mode := enc_mode c; rc_mode := rc_mode c; tune := tune c;
     qp := qp c; forced_idr := forced_idr c; level := level c;
     base_layer_switch_mode := base_layer_switch_mode c |}.

Definition set_svt_handle (c : SvtContext) (v : ptr) :=
  {| enc_params := enc_params c; svt_handle := v; in_buf := in_buf c;
     raw_size := raw_size c; pool := pool c; eos_flag := eos_flag c;
     enc_mode := enc_mode c; rc_mode := rc_mode c; tune := tune c;
     qp := qp c; forced_idr := forced_idr c; level := level c;
     base_layer_switch_mode := base_layer_switch_mode c |}.

Definition set_in_buf (c : SvtContext) (v : option EbBufferHeaderType) :=
  {| enc_params := enc_params c; svt_handle := svt_handle c; in_buf := v;
     raw_size := raw_size c; pool := pool c; eos_flag := eos_flag c;
     enc_mode := enc_mode c; rc_mode := rc_mode c; tune := tune c;
     qp := qp c; forced_idr := forced_idr c; level := level c;
     base_layer_switch_mode := base_layer_switch_mode c |}.

Definition set_raw_size (c : SvtContext) (v : Z) :=
  {| enc_params := enc_params c; svt_handle := svt_handle c;
     in_buf := in_buf c; raw_size := v; pool := pool c;
     eos_flag := eos_flag c;
     enc_mode := enc_mode c; rc_mode := rc_mode c; tune := tune c;
     qp := qp c; forced_idr := forced_idr c; level := level c;
     base_layer_switch_mode := base_layer_switch_mode c |}.

Definition set_pool (c : SvtContext) (v : option AVBufferPool) :=
  {| enc_params := enc_params c; svt_handle := svt_handle c;
     in_buf := in_buf c; raw_size := raw_size c; pool := v;
     eos_flag := eos_flag c;
     enc_mode := enc_mode c; rc_mode := rc_mode c; tune := tune c;
     qp := qp c; forced_idr := forced_idr c; level := level c;
     base_layer_switch_mode := base_layer_switch_mode c |}.

Definition set_eos_flag (c : SvtContext) (v : EOS_STATUS) :=
  {| enc_params := enc_params c; svt_handle := svt_handle c;
     in_buf := in_buf c; raw_size := raw_size c; pool := pool c;
     eos_flag := v;
     enc_mode := enc_mode c; rc_mode := rc_mode c; tune := tune c;
     qp := qp c; forced_idr := forced_idr c; level := level c;
     base_layer_switch_mode := base_layer_switch_mode c |}.

Definition set_priv_data (a : AVCodecContext) (c : SvtContext) :=
  {| priv_data := c; width := width a; height := height a;
     pix_fmt := pix_fmt a; bit_rate := bit_rate a; gop_size := gop_size a;
     framerate := framerate a; time_base := time_base a;
     ticks_per_frame := ticks_per_frame a; qmax := qmax a; qmin := qmin a;
     flags := flags a |}.

Section Structs.
Context `{EngineHeader}.

(** [s->f = v]: the value is converted to the type of the field. *)
Definition store (s : Eb.ints) (f : Eb.field) (v : Z) : Eb.ints :=
  fun g => if Eb.field_eqb g f then cast (field_type f) v else s g.

Definition set_hdr (h : EbBufferHeaderType) (f : Eb.field) (v : Z) :=
  {| hdr := store (hdr h) f v; p_buffer := p_buffer h;
     p_app_private := p_app_private h; pic_type := pic_type h |}.

Definition set_p_buffer (h : EbBufferHeaderType) (b : buffer) :=
  {| hdr := hdr h; p_buffer := b;
     p_app_private := p_app_private h; pic_type := pic_type h |}.

Definition set_p_app_private (h : EbBufferHeaderType) (p : ptr) :=
  {| hdr := hdr h; p_buffer := p_buffer h;
     p_app_private := p; pic_type := pic_type h |}.

Definition set_pic_type (h : EbBufferHeaderType) (t : EbPictType) :=
  {| hdr := hdr h; p_buffer := p_buffer h;
     p_app_private := p_app_private h; pic_type := t |}.

(** Memory as [av_mallocz] returns it: every byte is 0. *)
Definition zeroed_header : EbBufferHeaderType :=
  {| hdr := Eb.zeroed; p_buffer := no_buffer; p_app_private := NULL;
     pic_type := EbPictType_of_int 0 |}.

Definition zeroed_input : EbSvtEncInput :=
  {| luma := NULL; cb := NULL; cr := NULL; strides := Eb.zeroed |}.

End Structs.

(** ** The option table *)

(** The entries of [options] that bind a field of the context, with the
    bounds the framework enforces when an option is set.  (The entries of
    type [AV_OPT_TYPE_CONST] only name values of "level", "tune" and "rc".) *)
Record AVOption : Type := {
  offset : SvtContext -> Z;
  default_val : Z;
  min : Z;
  max : Z
}.

Definition options : list AVOption :=
  [ {| offset := enc_mode; default_val := 9; min := 0; max := 9 |};
    {| offset := level; default_val := 0; min := 0; max := 0xff |};
    {| offset := tune; default_val := 0; min := 0; max := 2 |};
    {| offset := rc_mode; default_val := 0; min := 0; max := 2 |};
    {| offset := qp; default_val := 32; min := 0; max := 51 |};
    {| offset := base_layer_switch_mode; default_val := 0;
       min := 0; max := 1 |};
    {| offset := forced_idr; default_val := 0; min := -1; max := 1 |} ].

Definition options_in_range (svt_enc : SvtContext) : Prop :=
  Forall (fun o => min o <= offset o svt_enc <= max o) options.

(** ** Buffers and configuration *)

(** The answers of the allocator during [alloc_buffer]: whether each
    allocation returns memory. *)
Record Allocator : Type := {
  av_mallocz_in_buf : bool;
  av_mallocz_in_data : bool;
  av_buffer_pool_init : bool
}.

Section Configuration.
Context `{HostFramework} `{EngineHeader}.

Definition free_buffer (svt_enc : SvtContext) : SvtContext :=
  let svt_enc :=
    match in_buf svt_enc with
    | Some _ => set_in_buf svt_enc None
    | None => svt_enc
    end in
  set_pool svt_enc None.

Definition alloc_buffer (mem : Allocator) (config : EbSvtVp9EncConfiguration)
    (svt_enc : SvtContext) : Z * SvtContext :=
  let luma_size_8bit :=
    cast size_t
      (mul (field_type Eb.source_width) (field_type Eb.source_height)
         (config Eb.source_width) (config Eb.source_height)) in
  let luma_size_10bit :=
    if 8 <? config Eb.encoder_bit_depth then luma_size_8bit else 0 in
  let svt_enc :=
    set_raw_size svt_enc
      (cast int
         (cast size_t (cast size_t (luma_size_8bit + luma_size_10bit) * 3)
            / 2)) in
  let failed (svt_enc : SvtContext) :=
    (AVERROR ENOMEM, free_buffer svt_enc) in
  if negb (av_mallocz_in_buf mem) then
    failed (set_in_buf svt_enc None)
  else
    let header := zeroed_header in
    if negb (av_mallocz_in_data mem) then
      failed (set_in_buf svt_enc (Some (set_p_buffer header no_buffer)))
    else
      let header := set_p_buffer header (input_data zeroed_input) in
      let header := set_hdr header Eb.size sizeof_EbBufferHeaderType in
      let header := set_p_app_private header NULL in
      let svt_enc := set_in_buf svt_enc (Some header) in
      if negb (av_buffer_pool_init mem) then
        failed (set_pool svt_enc None)
      else
        let svt_enc :=
          set_pool svt_enc (Some {| pool_size := raw_size svt_enc |}) in
        (0, svt_enc).

(** [param] is written through a pointer; the function returns it together
    with the context.  At its call site [param] is the [enc_params] of the
    context, which [alloc_buffer] and [free_buffer] do not write.  The
    products of two [int] are taken modulo [2 ^ 32]. *)
Definition config_enc_params (mem : Allocator)
    (param : EbSvtVp9EncConfiguration) (avctx : AVCodecContext)
    : Z * EbSvtVp9EncConfiguration * SvtContext :=
  let svt_enc := priv_data avctx in
  let ten_bits := 0 in

  let param := store param Eb.source_width (width avctx) in
  let param := store param Eb.source_height (height avctx) in

  let ten_bits :=
    match pix_fmt avctx with
    | AV_PIX_FMT_YUV420P10LE => 1
    | _ => ten_bits
    end in

  let param := store param Eb.enc_mode (enc_mode svt_enc) in
  let param := store param Eb.level (level svt_enc) in
  let param := store param Eb.rate_control_mode (rc_mode svt_enc) in
  let param := store param Eb.tune (tune svt_enc) in
  let param :=
    store param Eb.base_layer_switch_mode
      (base_layer_switch_mode svt_enc) in
  let param := store param Eb.qp (qp svt_enc) in

  let param := store param Eb.target_bit_rate (bit_rate avctx) in
  let param :=
    if 0 <? gop_size avctx
    then store param Eb.intra_period (cast int (gop_size avctx - 1))
    else param in

  let param :=
    if (0 <? num (framerate avctx)) && (0 <? den (framerate avctx)) then
      let param :=
        store param Eb.frame_rate_numerator (num (framerate avctx)) in
      store param Eb.frame_rate_denominator
        (cast int (den (framerate avctx) * ticks_per_frame avctx))
    else
      let param :=
        store param Eb.frame_rate_numerator (den (time_base avctx)) in
      store param Eb.frame_rate_denominator
        (cast int (num (time_base avctx) * ticks_per_frame avctx)) in

  let param :=
    if negb (param Eb.rate_control_mode =? 0) then
      let param := store param Eb.max_qp_allowed (qmax avctx) in
      store param Eb.min_qp_allowed (qmin avctx)
    else param in

  let param :=
    store param Eb.intra_refresh_type
      (cast int
         (of_bool (negb (Z.land (flags avctx) AV_CODEC_FLAG_CLOSED_GOP =? 0))
          + 1)) in

  let param :=
    if negb (ten_bits =? 0)
    then store param Eb.encoder_bit_depth 10
    else param in

  let '(ret, svt_enc) := alloc_buffer mem param svt_enc in
  (ret, param, svt_enc).

End Configuration.

(** ** Calls out of the adapter *)

(** The calls the adapter makes to the engine and to the buffer pool, with
    the arguments it passes. *)
Inductive ext_call : Type :=
| eb_vp9_svt_init_handle
| eb_vp9_svt_enc_set_parameter (handle : ptr)
    (params : EbSvtVp9EncConfiguration)
| eb_vp9_init_encoder (handle : ptr)
| eb_vp9_deinit_encoder (handle : ptr)
| eb_vp9_deinit_handle (handle : ptr)
| eb_vp9_svt_enc_send_picture (handle : ptr) (header : EbBufferHeaderType)
| eb_vp9_svt_get_packet (handle : ptr) (pic_send_done : Z)
| eb_vp9_svt_release_out_buffer (header : EbBufferHeaderType)
| av_buffer_pool_get (pool : option AVBufferPool).

(** A computation logs its calls in order; it has no result when it reads
    through a pointer that does not point to an object of the expected kind
    or copies past the end of a buffer. *)
Definition M (A : Type) : Type := option (A * list ext_call).

Definition ret {A} (a : A) : M A := Some (a, []).

Definition bind {A B} (m : M A) (k : A -> M B) : M B :=
  match m with
  | None => None
  | Some (a, l1) =>
      match k a with
      | None => None
      | Some (b, l2) => Some (b, l1 ++ l2)
      end
  end.

Definition undefined {A} : M A := None.

(** A call and the value it answers. *)
Definition call {A} (c : ext_call) (answer : A) : M A := Some (answer, [c]).

Definition lift {A} (o : option A) : M A :=
  match o with
  | Some a => ret a
  | None => undefined
  end.

Declare Scope adapter_scope.
Delimit Scope adapter_scope with adapter.
Notation "x <- m ;; k" := (bind m (fun x => k))
  (at level 61, m at next level, right associativity) : adapter_scope.
Notation "m ;; k" := (bind m (fun _ => k))
  (at level 61, right associativity) : adapter_scope.

Definition result {A} (m : M A) : option A := option_map fst m.
Definition calls {A} (m : M A) : list ext_call :=
  match m with
  | Some (_, l) => l
  | None => []
  end.

Definition is_EB_ErrorNone (e : EbErrorType) : bool :=
  match e with
  | EB_ErrorNone => true
  | _ => false
  end.

Definition is_EB_NoErrorEmptyQueue (e : EbErrorType) : bool :=
  match e with
  | EB_NoErrorEmptyQueue => true
  | _ => false
  end.

(** [memcpy (dst, src, n)] on buffers of known length. *)
Definition memcpy (dst : list Z) (src : buffer) (n : Z) : option (list Z) :=
  match src with
  | stream_data bytes =>
      if (n <=? Z.of_nat (length bytes)) && (n <=? Z.of_nat (length dst))
      then Some (firstn (Z.to_nat n) bytes ++ skipn (Z.to_nat n) dst)
      else None
  | _ => None
  end.

(** ** The codec callbacks *)

(** What the engine and the allocator answer during [eb_enc_init]:
    [eb_vp9_svt_init_handle] writes the handle and the engine's default
    configuration into the context. *)
Record InitEnv : Type := {
  init_handle_ret : EbErrorType;
  init_handle_handle : ptr;
  init_handle_config : EbSvtVp9EncConfiguration;
  init_mem : Allocator;
  set_parameter_ret : EbErrorType;
  init_encoder_ret : EbErrorType
}.

(** During [eb_send_frame]: the answer of [eb_vp9_svt_enc_send_picture], and
    the contents of the local [headerPtrLast] before its fields are set. *)
Record SendEnv : Type := {
  send_picture_ret : EbErrorType;
  headerPtrLast_declared : EbBufferHeaderType
}.

(** During [eb_receive_packet]: the answer of [eb_vp9_svt_get_packet], the
    header it hands out, and the buffer [av_buffer_pool_get] returns, if
    any. *)
Record ReceiveEnv : Type := {
  get_packet_ret : EbErrorType;
  get_packet_header : EbBufferHeaderType;
  pool_get_ref : option AVBufferRef
}.

Section Callbacks.
Context `{HostFramework} `{EngineHeader}.
Local Open Scope adapter_scope.

Definition read_in_data (config : EbSvtVp9EncConfiguration)
    (frame : AVFrame.t) (headerPtr : EbBufferHeaderType)
    : option EbBufferHeaderType :=
  let is16bit := cast uint8_t (of_bool (8 <? config Eb.encoder_bit_depth)) in
  let luma_size :=
    cast uint64_t
      (Z.shiftl
         (cast uint64_t
            (cast uint64_t (config Eb.source_width)
             * cast uint64_t (config Eb.source_height)))
         is16bit) in
  match p_buffer headerPtr with
  | input_data in_data =>
      let stride (i : nat) :=
        Z.shiftr (nth i (AVFrame.linesize frame) 0) is16bit in
      let in_data :=
        {| luma := nth 0 (AVFrame.data frame) NULL;
           cb := nth 1 (AVFrame.data frame) NULL;
           cr := nth 2 (AVFrame.data frame) NULL;
           strides :=
             store (store (store (strides in_data)
               Eb.y_stride (stride 0%nat))
               Eb.cb_stride (stride 1%nat))
               Eb.cr_stride (stride 2%nat) |} in
      let headerPtr := set_p_buffer headerPtr (input_data in_data) in
      Some
        (set_hdr headerPtr Eb.n_filled_len
           (cast uint64_t
              (cast uint64_t (hdr headerPtr Eb.n_filled_len)
               + cast uint64_t (luma_size * 3) / 2)))
  | _ => None
  end.

Definition eb_enc_init (env : InitEnv) (avctx : AVCodecContext)
    : M (Z * SvtContext) :=
  let svt_enc := priv_data avctx in
  let svt_enc := set_eos_flag svt_enc EOS_NOT_REACHED in
  let failed (svt_enc : SvtContext) (svt_ret : EbErrorType) :=
    ret (error_mapping svt_ret, free_buffer svt_enc) in
  let failed_init_handle (svt_enc : SvtContext) (svt_ret : EbErrorType) :=
    call (eb_vp9_deinit_handle (svt_handle svt_enc)) tt ;;
    failed svt_enc svt_ret in

  svt_ret <- call eb_vp9_svt_init_handle (init_handle_ret env) ;;
  let svt_enc := set_svt_handle svt_enc (init_handle_handle env) in
  let svt_enc := set_enc_params svt_enc (init_handle_config env) in
  if negb (is_EB_ErrorNone svt_ret) then failed svt_enc svt_ret else

  let '(r, param, svt_enc) :=
    config_enc_params (init_mem env) (enc_params svt_enc)
      (set_priv_data avctx svt_enc) in
  let svt_enc := set_enc_params svt_enc param in
  let svt_ret := EbErrorType_of_int r in
  if negb (is_EB_ErrorNone svt_ret)
  then failed_init_handle svt_enc svt_ret else

  svt_ret <- call (eb_vp9_svt_enc_set_parameter (svt_handle svt_enc)
                     (enc_params svt_enc)) (set_parameter_ret env) ;;
  if negb (is_EB_ErrorNone svt_ret)
  then failed_init_handle svt_enc svt_ret else

  svt_ret <- call (eb_vp9_init_encoder (svt_handle svt_enc))
               (init_encoder_ret env) ;;
  if negb (is_EB_ErrorNone svt_ret)
  then failed_init_handle svt_enc svt_ret else

  ret (0, svt_enc).

Definition eb_send_frame (env : SendEnv) (avctx : AVCodecContext)
    (frame : option AVFrame.t) : M (Z * SvtContext) :=
  let svt_enc := priv_data avctx in
  let headerPtr := in_buf svt_enc in
  match frame with
  | None =>
      let headerPtrLast := headerPtrLast_declared env in
      let headerPtrLast := set_hdr headerPtrLast Eb.n_alloc_len 0 in
      let headerPtrLast := set_hdr headerPtrLast Eb.n_filled_len 0 in
      let headerPtrLast := set_hdr headerPtrLast Eb.n_tick_count 0 in
      let headerPtrLast := set_p_app_private headerPtrLast NULL in
      let headerPtrLast := set_p_buffer headerPtrLast no_buffer in
      let headerPtrLast :=
        set_hdr headerPtrLast Eb.flags EB_BUFFERFLAG_EOS in

      call (eb_vp9_svt_enc_send_picture (svt_handle svt_enc) headerPtrLast)
        (send_picture_ret env) ;;
      let svt_enc := set_eos_flag svt_enc EOS_REACHED in
      ret (0, svt_enc)
  | Some frame =>
      headerPtr <- lift headerPtr ;;
      headerPtr <- lift (read_in_data (enc_params svt_enc) frame headerPtr) ;;

      let headerPtr := set_hdr headerPtr Eb.flags 0 in
      let headerPtr := set_p_app_private headerPtr NULL in
      let headerPtr := set_hdr headerPtr Eb.pts (AVFrame.pts frame) in
      let headerPtr :=
        set_pic_type headerPtr
          match AVFrame.pict_type frame with
          | AV_PICTURE_TYPE_I =>
              if 0 <? forced_idr svt_enc
              then EB_IDR_PICTURE else EB_I_PICTURE
          | AV_PICTURE_TYPE_P =>
              EB_P_PICTURE
          | AV_PICTURE_TYPE_B =>
              EB_B_PICTURE
          | _ =>
              EB_INVALID_PICTURE
          end in
      let svt_enc := set_in_buf svt_enc (Some headerPtr) in
      call (eb_vp9_svt_enc_send_picture (svt_handle svt_enc) headerPtr)
        (send_picture_ret env) ;;

      ret (0, svt_enc)
  end.

Definition pkt_or_flag (pkt : AVPacket.t) (flag : Z) : AVPacket.t :=
  {| AVPacket.buf := AVPacket.buf pkt; AVPacket.data := AVPacket.data pkt;
     AVPacket.size := AVPacket.size pkt; AVPacket.pts := AVPacket.pts pkt;
     AVPacket.dts := AVPacket.dts pkt;
     AVPacket.flags := cast int (Z.lor (AVPacket.flags pkt) flag) |}.

(** The assignment [pkt = NULL] on the end-of-stream path changes the
    local pointer only. *)
Definition eb_receive_packet (env : ReceiveEnv) (avctx : AVCodecContext)
    (pkt : AVPacket.t) : M (Z * SvtContext * AVPacket.t) :=
  let svt_enc := priv_data avctx in
  if EOS_STATUS_eqb EOS_TOTRIGGER (eos_flag svt_enc) then
    ret (AVERROR_EOF, svt_enc, pkt)
  else

  svt_ret <- call (eb_vp9_svt_get_packet (svt_handle svt_enc)
                     (EOS_STATUS_value (eos_flag svt_enc)))
               (get_packet_ret env) ;;
  let headerPtr := get_packet_header env in
  if is_EB_NoErrorEmptyQueue svt_ret then
    ret (AVERROR EAGAIN, svt_enc, pkt)
  else

  ref <- call (av_buffer_pool_get (pool svt_enc)) (pool_get_ref env) ;;
  match ref with
  | None =>
      call (eb_vp9_svt_release_out_buffer headerPtr) tt ;;
      ret (AVERROR ENOMEM, svt_enc, pkt)
  | Some ref =>
      bytes <- lift (memcpy (ref_data ref) (p_buffer headerPtr)
                       (cast size_t (hdr headerPtr Eb.n_filled_len))) ;;
      let pkt :=
        {| AVPacket.buf := Some {| ref_data := bytes |};
           AVPacket.data := bytes;
           AVPacket.size := cast int (hdr headerPtr Eb.n_filled_len);
           AVPacket.pts := cast int64_t (hdr headerPtr Eb.pts);
           AVPacket.dts := cast int64_t (hdr headerPtr Eb.dts);
           AVPacket.flags := AVPacket.flags pkt |} in
      let pkt :=
        match pic_type headerPtr with
        | EB_IDR_PICTURE | EB_I_PICTURE => pkt_or_flag pkt AV_PKT_FLAG_KEY
        | _ => pkt
        end in
      let pkt :=
        match pic_type headerPtr with
        | EB_NON_REF_PICTURE => pkt_or_flag pkt AV_PKT_FLAG_DISPOSABLE
        | _ => pkt
        end in

      let pkt :=
        if negb (Z.land (hdr headerPtr Eb.flags) EB_BUFFERFLAG_SHOW_EXT =? 0)
        then pkt_or_flag pkt AV_PKT_FLAG_SVT_VP9_EXT_ON
        else pkt_or_flag pkt AV_PKT_FLAG_SVT_VP9_EXT_OFF in

      let svt_enc :=
        if EB_BUFFERFLAG_EOS =? hdr headerPtr Eb.flags
        then set_eos_flag svt_enc EOS_TOTRIGGER
        else svt_enc in

      call (eb_vp9_svt_release_out_buffer headerPtr) tt ;;
      ret (0, svt_enc, pkt)
  end.

Definition eb_enc_close (avctx : AVCodecContext) : M (Z * SvtContext) :=
  let svt_enc := priv_data avctx in

  call (eb_vp9_deinit_encoder (svt_handle svt_enc)) tt ;;
  call (eb_vp9_deinit_handle (svt_handle svt_enc)) tt ;;

  let svt_enc := free_buffer svt_enc in

  ret (0, svt_enc).

End Callbacks.

(** ** Reading the call log *)

(** The entry point a logged call goes to. *)
Definition entry_point (c : ext_call) : nat :=
  match c with
  | eb_vp9_svt_init_handle => 0
  | eb_vp9_svt_enc_set_parameter _ _ => 1
  | eb_vp9_init_encoder _ => 2
  | eb_vp9_deinit_encoder _ => 3
  | eb_vp9_deinit_handle _ => 4
  | eb_vp9_svt_enc_send_picture _ _ => 5
  | eb_vp9_svt_get_packet _ _ => 6
  | eb_vp9_svt_release_out_buffer _ => 7
  | av_buffer_pool_get _ => 8
  end%nat.

Definition alloc_ok (mem : Allocator) : bool :=
  av_mallocz_in_buf mem && av_mallocz_in_data mem && av_buffer_pool_init mem.

Section FirstFailure.
Context `{HostFramework} `{EngineHeader}.

(** The code of the first step of [eb_enc_init] that fails:
    [EB_ErrorNone] when none does. *)
Definition first_failure (env : InitEnv) : EbErrorType :=
  if negb (is_EB_ErrorNone (init_handle_ret env)) then
    init_handle_ret env
  else if negb (alloc_ok (init_mem env)) then
    EbErrorType_of_int (AVERROR ENOMEM)
  else if negb (is_EB_ErrorNone (set_parameter_ret env)) then
    set_parameter_ret env
  else
    init_encoder_ret env.

End FirstFailure.

(** ** Sequences of calls *)

Inductive api_call : Type :=
| send_frame (env : SendEnv) (frame : option AVFrame.t)
| receive_packet (env : ReceiveEnv) (pkt : AVPacket.t).

Definition is_null_frame (c : api_call) : bool :=
  match c with
  | send_frame _ None => true
  | _ => false
  end.

Section Runs.
Context `{HostFramework} `{EngineHeader}.

(** One callback on the codec context; [None] when it is undefined. *)
Definition step (avctx : AVCodecContext) (c : api_call)
    : option AVCodecContext :=
  match c with
  | send_frame env frame =>
      option_map (fun r => set_priv_data avctx (snd r))
        (result (eb_send_frame env avctx frame))
  | receive_packet env pkt =>
      option_map (fun r => set_priv_data avctx (snd (fst r)))
        (result (eb_receive_packet env avctx pkt))
  end.

(** The end-of-stream flag after each call of a sequence, up to the first
    undefined call. *)
Fixpoint eos_trace (cs : list api_call) (avctx : AVCodecContext)
    : list EOS_STATUS :=
  match cs with
  | [] => []
  | c :: cs =>
      match step avctx c with
      | None => []
      | Some avctx => eos_flag (priv_data avctx) :: eos_trace cs avctx
      end
  end.

(** No null frame is submitted while the flag is [EOS_TOTRIGGER]. *)
Fixpoint null_frames_before_trigger (cs : list api_call)
    (avctx : AVCodecContext) : bool :=
  match cs with
  | [] => true
  | c :: cs =>
      negb (is_null_frame c
            && EOS_STATUS_eqb EOS_TOTRIGGER (eos_flag (priv_data avctx)))
      && match step avctx c with
         | None => true
         | Some avctx => null_frames_before_trigger cs avctx
         end
  end.

End Runs.

(** The flag values of a trace, starting from [e], never go back along
    [EOS_NOT_REACHED], [EOS_REACHED], [EOS_TOTRIGGER]. *)
Fixpoint never_regresses (e : EOS_STATUS) (trace : list EOS_STATUS) : bool :=
  match trace with
  | [] => true
  | e' :: trace =>
      (EOS_STATUS_value e <=? EOS_STATUS_value e') && never_regresses e' trace
  end.

(** The context is usable by [eb_send_frame]: the input buffer header and
    its picture descriptor are allocated. *)
Definition in_buf_ready (svt_enc : SvtContext) : Prop :=
  match in_buf svt_enc with
  | Some header =>
      match p_buffer header with
      | input_data _ => True
      | _ => False
      end
  | None => False
  end.

(** ** An instance of the two interfaces

    Used to run the model on concrete inputs.  The host's constants are
    those of FFmpeg on Linux.  The engine's are of the kind EbSvtVp9Enc.h
    declares: 8-bit [enc_mode] and [tune], 64-bit time stamps, a signed
    [intra_period], 32-bit unsigned fields otherwise.  The two [int] values
    the adapter stores into an [EbErrorType] variable are 0 and
    [AVERROR(ENOMEM)], which is no enumerator of the engine. *)

Module Demo.

Definition MKTAG (a b c d : Z) : Z :=
  Z.lor a (Z.lor (Z.shiftl b 8) (Z.lor (Z.shiftl c 16) (Z.shiftl d 24))).

Definition FFERRTAG (a b c d : Z) : Z := - MKTAG a b c d.

Definition errno_value (e : errno) : Z :=
  match e with
  | ENOMEM => 12
  | EINVAL => 22
  | EAGAIN => 11
  end.

Lemma errno_negative : forall e, - errno_value e < 0.
Proof. intros []; reflexivity. Qed.

(* 'E' 'O' 'F' ' ', 'E' 'X' 'T' ' ', 'U' 'N' 'K' 'N' *)
Definition host : HostFramework :=
  {| AVERROR := fun e => - errno_value e;
     AVERROR_EOF := FFERRTAG 69 79 70 32;
     AVERROR_EXTERNAL := FFERRTAG 69 88 84 32;
     AVERROR_UNKNOWN := FFERRTAG 85 78 75 78;
     AV_CODEC_FLAG_CLOSED_GOP := Z.shiftl 1 31;
     AV_PKT_FLAG_KEY := 0x0001;
     AV_PKT_FLAG_DISPOSABLE := 0x0010;
     AV_PKT_FLAG_SVT_VP9_EXT_ON := 0x10000;
     AV_PKT_FLAG_SVT_VP9_EXT_OFF := 0x20000;
     AVERROR_negative := errno_negative;
     AVERROR_EOF_negative := eq_refl;
     AVERROR_EXTERNAL_negative := eq_refl;
     AVERROR_UNKNOWN_negative := eq_refl |}.

Definition types (f : Eb.field) : ctype :=
  match f with
  | Eb.enc_mode | Eb.tune => uint8_t
  | Eb.intra_period => int32_t
  | Eb.pts | Eb.dts => int64_t
  | _ => uint32_t
  end.

Definition error_of_int (z : Z) : EbErrorType :=
  if z =? 0 then EB_ErrorNone else EB_ErrorOther z.

Lemma error_of_int_zero :
  forall z, error_of_int z = EB_ErrorNone <-> z = 0.
Proof.
  intros z; unfold error_of_int.
  destruct (Z.eqb_spec z 0) as [-> | Hz]; split; intros E;
    solve [reflexivity | discriminate E | contradiction].
Qed.

Definition engine : EngineHeader :=
  {| field_type := types;
     EB_BUFFERFLAG_EOS := 0x00000001;
     EB_BUFFERFLAG_SHOW_EXT := 0x00000002;
     sizeof_EbBufferHeaderType := 64;
     EbPictType_of_int := EB_PICTURE_other;
     EbErrorType_of_int := error_of_int;
     EbErrorType_of_int_zero := error_of_int_zero |}.

(** A context as the framework allocates it, with the options at their
    defaults, a 64x48 picture at 25 frames per second. *)
Definition svt_enc0 : SvtContext :=
  {| enc_params := Eb.zeroed; svt_handle := NULL; in_buf := None;
     raw_size := 0; pool := None; eos_flag := EOS_NOT_REACHED;
     enc_mode := 9; rc_mode := 0; tune := 0; qp := 32; forced_idr := 0;
     level := 0; base_layer_switch_mode := 0 |}.

Definition avctx0 : AVCodecContext :=
  {| priv_data := svt_enc0; width := 64; height := 48;
     pix_fmt := AV_PIX_FMT_YUV420P; bit_rate := 7000000; gop_size := 12;
     framerate := {| num := 25; den := 1 |};
     time_base := {| num := 1; den := 25 |};
     ticks_per_frame := 1; qmax := 48; qmin := 10; flags := 0 |}.

(** The same with no frame rate set, so that the time base decides, and
    with 10-bit input. *)
Definition avctx_time_base : AVCodecContext :=
  {| priv_data := svt_enc0; width := 64; height := 48;
     pix_fmt := AV_PIX_FMT_YUV420P; bit_rate := 7000000; gop_size := 12;
     framerate := {| num := 0; den := 1 |};
     time_base := {| num := 1001; den := 30000 |};
     ticks_per_frame := 1; qmax := 48; qmin := 10; flags := 0 |}.

Definition avctx_10bit : AVCodecContext :=
  {| priv_data := svt_enc0; width := 64; height := 48;
     pix_fmt := AV_PIX_FMT_YUV420P10LE; bit_rate := 7000000; gop_size := 12;
     framerate := {| num := 25; den := 1 |};
     time_base := {| num := 1; den := 25 |};
     ticks_per_frame := 1; qmax := 48; qmin := 10; flags := 0 |}.

(** The engine's default configuration: 8 bits per sample. *)
Definition defaults : EbSvtVp9EncConfiguration :=
  @store engine Eb.zeroed Eb.encoder_bit_depth 8.

Definition init_ok : InitEnv :=
  {| init_handle_ret := EB_ErrorNone; init_handle_handle := 4096;
     init_handle_config := defaults;
     init_mem := {| av_mallocz_in_buf := true; av_mallocz_in_data := true;
                    av_buffer_pool_init := true |};
     set_parameter_ret := EB_ErrorNone;
     init_encoder_ret := EB_ErrorNone |}.

(** The context after a successful [eb_enc_init]. *)
Definition avctx1 : AVCodecContext :=
  match result (@eb_enc_init host engine init_ok avctx0) with
  | Some (_, svt_enc) => set_priv_data avctx0 svt_enc
  | None => avctx0
  end.

Definition garbage : EbBufferHeaderType :=
  {| hdr := fun _ => 0xCC; p_buffer := no_buffer; p_app_private := 0xCC;
     pic_type := EB_PICTURE_other 0xCC |}.

Definition send_env (r : EbErrorType) : SendEnv :=
  {| send_picture_ret := r; headerPtrLast_declared := garbage |}.

Definition frame0 : AVFrame.t :=
  {| AVFrame.data := [65536; 69632; 70656];
     AVFrame.linesize := [64; 32; 32];
     AVFrame.pts := 0;
     AVFrame.pict_type := AV_PICTURE_TYPE_I |}.

Definition pkt0 : AVPacket.t :=
  {| AVPacket.buf := None; AVPacket.data := []; AVPacket.size := 0;
     AVPacket.pts := 0; AVPacket.dts := 0; AVPacket.flags := 0 |}.

(** The engine's last output: an empty packet that carries the
    end-of-stream flag. *)
Definition eos_header : EbBufferHeaderType :=
  {| hdr := @store engine Eb.zeroed Eb.flags 0x00000001;
     p_buffer := stream_data []; p_app_private := NULL;
     pic_type := EB_P_PICTURE |}.

Definition pool_buffer : AVBufferRef :=
  {| ref_data := repeat 0 4608 |}.

Definition receive_eos : ReceiveEnv :=
  {| get_packet_ret := EB_ErrorNone; get_packet_header := eos_header;
     pool_get_ref := Some pool_buffer |}.

Definition receive_eos_no_memory : ReceiveEnv :=
  {| get_packet_ret := EB_ErrorNone; get_packet_header := eos_header;
     pool_get_ref := None |}.

(** The context after the calls [cs], each made on the result of the one
    before. *)
Definition after (cs : list api_call) (avctx : AVCodecContext)
    : AVCodecContext :=
  fold_left
    (fun avctx c =>
       match @step host engine avctx c with
       | Some avctx' => avctx'
       | None => avctx
       end)
    cs avctx.

(** A frame, then the null frame, then packets until the engine's last. *)
Definition encode_and_drain : list api_call :=
  [ send_frame (send_env EB_ErrorNone) (Some frame0);
    send_frame (send_env EB_ErrorNone) None;
    receive_packet receive_eos pkt0;
    receive_packet receive_eos pkt0 ].

(** The null frame, the engine's last packet, the null frame again. *)
Definition drain_twice : list api_call :=
  [ send_frame (send_env EB_ErrorNone) None;
    receive_packet receive_eos pkt0;
    send_frame (send_env EB_ErrorNone) None ].

(** The context once the null frame is submitted, and once the engine's
    last packet is received. *)
Definition avctx_draining : AVCodecContext :=
  after [send_frame (send_env EB_ErrorNone) None] avctx1.

Definition avctx_drained : AVCodecContext :=
  after [receive_packet receive_eos pkt0] avctx_draining.

End Demo.

(** ** Whole runs *)

Section WholeRuns.
Context `{HostFramework} `{EngineHeader}.

(** A sequence of callbacks, each on the context the one before left;
    [None] as soon as one is undefined. *)
Fixpoint run (cs : list api_call) (avctx : AVCodecContext)
    : option AVCodecContext :=
  match cs with
  | [] => Some avctx
  | c :: cs =>
      match step avctx c with
      | Some avctx => run cs avctx
      | None => None
      end
  end.

(** The calls one callback makes, and those of a sequence, in order. *)
Definition step_calls (avctx : AVCodecContext) (c : api_call)
    : list ext_call :=
  match c with
  | send_frame env frame => calls (eb_send_frame env avctx frame)
  | receive_packet env pkt => calls (eb_receive_packet env avctx pkt)
  end.

Fixpoint run_calls (cs : list api_call) (avctx : AVCodecContext)
    : list ext_call :=
  match cs with
  | [] => []
  | c :: cs =>
      step_calls avctx c
      ++ match step avctx c with
         | Some avctx => run_calls cs avctx
         | None => []
         end
  end.

End WholeRuns.

Definition is_receive_packet (c : api_call) : bool :=
  match c with
  | receive_packet _ _ => true
  | _ => false
  end.

(** How often a log hands a packet back to the engine, and how often it
    asks for one. *)
Definition is_release (c : ext_call) : bool :=
  match c with
  | eb_vp9_svt_release_out_buffer _ => true
  | _ => false
  end.

Definition is_get_packet (c : ext_call) : bool :=
  match c with
  | eb_vp9_svt_get_packet _ _ => true
  | _ => false
  end.

(** The size of one picture in bytes: luma and two quarter-size chroma
    planes, at one byte per sample up to 8 bits and two above. *)
Definition picture_bytes (config : EbSvtVp9EncConfiguration) : Z :=
  let samples := config Eb.source_width * config Eb.source_height in
  if 8 <? config Eb.encoder_bit_depth
  then 2 * samples * 3 / 2
  else samples * 3 / 2.

(** All bits of the mask [m] are set in [flags]. *)
Definition has_bits (flags m : Z) : Prop := Z.land flags m = m.

Definition is_send_picture (c : ext_call) : bool :=
  match c with
  | eb_vp9_svt_enc_send_picture _ _ => true
  | _ => false
  end.

(** What [eb_send_frame] and [eb_receive_packet] leave alone: everything
    but the input buffer and the end-of-stream flag. *)
Definition same_setup (a b : AVCodecContext) : Prop :=
  set_priv_data a (priv_data b) = b /\
  enc_params (priv_data a) = enc_params (priv_data b) /\
  svt_handle (priv_data a) = svt_handle (priv_data b) /\
  raw_size (priv_data a) = raw_size (priv_data b) /\
  pool (priv_data a) = pool (priv_data b) /\
  (enc_mode (priv_data a) = enc_mode (priv_data b) /\
   rc_mode (priv_data a) = rc_mode (priv_data b) /\
   tune (priv_data a) = tune (priv_data b) /\
   qp (priv_data a) = qp (priv_data b) /\
   forced_idr (priv_data a) = forced_idr (priv_data b) /\
   level (priv_data a) = level (priv_data b) /\
   base_layer_switch_mode (priv_data a)
   = base_layer_switch_mode (priv_data b)).

Section InitOutcomes.
Context `{HostFramework} `{EngineHeader}.

(** The context on which [eb_enc_init] runs [config_enc_params], and what
    that returns. *)
Definition init_configured (env : InitEnv) (avctx : AVCodecContext) :=
  let svt_enc := set_eos_flag (priv_data avctx) EOS_NOT_REACHED in
  let svt_enc := set_svt_handle svt_enc (init_handle_handle env) in
  let svt_enc := set_enc_params svt_enc (init_handle_config env) in
  config_enc_params (init_mem env) (enc_params svt_enc)
    (set_priv_data avctx svt_enc).

(** The log of a failing [eb_enc_init]: the calls up to the failing step,
    then [eb_vp9_deinit_handle] if the handle was created. *)
Definition failure_log (env : InitEnv) (param : EbSvtVp9EncConfiguration)
    : list ext_call :=
  let handle := init_handle_handle env in
  eb_vp9_svt_init_handle ::
  (if is_EB_ErrorNone (init_handle_ret env) then
     (if alloc_ok (init_mem env) then
        eb_vp9_svt_enc_set_parameter handle param ::
        (if is_EB_ErrorNone (set_parameter_ret env)
         then [eb_vp9_init_encoder handle] else [])
      else [])
     ++ [eb_vp9_deinit_handle handle]
   else []).

End InitOutcomes.

(** ** More inputs for the instance *)

Module Cases.
Import Demo.

(** What [config_enc_params] makes of the engine's defaults. *)
Definition configured : EbSvtVp9EncConfiguration :=
  snd (fst (@config_enc_params host engine (init_mem init_ok) defaults
              avctx0)).

(** The context with variable bit rate selected. *)
Definition avctx_vbr : AVCodecContext :=
  {| priv_data :=
       {| enc_params := Eb.zeroed; svt_handle := NULL; in_buf := None;
          raw_size := 0; pool := None; eos_flag := EOS_NOT_REACHED;
          enc_mode := 9; rc_mode := 1; tune := 0; qp := 32; forced_idr := 0;
          level := 0; base_layer_switch_mode := 0 |};
     width := 64; height := 48;
     pix_fmt := AV_PIX_FMT_YUV420P; bit_rate := 7000000; gop_size := 12;
     framerate := {| num := 25; den := 1 |};
     time_base := {| num := 1; den := 25 |};
     ticks_per_frame := 1; qmax := 48; qmin := 10; flags := 0 |}.

(** The engine rejects the parameters; the engine answers the start of the
    encoder with its empty-queue code. *)
Definition init_bad_parameter : InitEnv :=
  {| init_handle_ret := EB_ErrorNone; init_handle_handle := 4096;
     init_handle_config := defaults;
     init_mem := {| av_mallocz_in_buf := true; av_mallocz_in_data := true;
                    av_buffer_pool_init := true |};
     set_parameter_ret := EB_ErrorBadParameter;
     init_encoder_ret := EB_ErrorNone |}.

Definition init_empty_queue : InitEnv :=
  {| init_handle_ret := EB_ErrorNone; init_handle_handle := 4096;
     init_handle_config := defaults;
     init_mem := {| av_mallocz_in_buf := true; av_mallocz_in_data := true;
                    av_buffer_pool_init := true |};
     set_parameter_ret := EB_ErrorNone;
     init_encoder_ret := EB_NoErrorEmptyQueue |}.

(** The engine has nothing yet; the engine hands out a key picture of
    three bytes. *)
Definition receive_nothing : ReceiveEnv :=
  {| get_packet_ret := EB_NoErrorEmptyQueue; get_packet_header := garbage;
     pool_get_ref := None |}.

Definition key_header : EbBufferHeaderType :=
  {| hdr := @store engine (@store engine (@store engine Eb.zeroed
              Eb.n_filled_len 3) Eb.pts 40) Eb.dts 40;
     p_buffer := stream_data [73; 68; 82; 0];
     p_app_private := NULL;
     pic_type := EB_IDR_PICTURE |}.

Definition receive_key : ReceiveEnv :=
  {| get_packet_ret := EB_ErrorNone; get_packet_header := key_header;
     pool_get_ref := Some pool_buffer |}.

(** The input buffer header a successful [eb_enc_init] leaves. *)
Definition in_buf1 : EbBufferHeaderType :=
  match in_buf (priv_data avctx1) with
  | Some header => header
  | None => garbage
  end.

(** Two frames, the null frame, a packet, the engine's last packet. *)
Definition two_frames : list api_call :=
  [ send_frame (send_env EB_ErrorNone) (Some frame0);
    receive_packet receive_nothing pkt0;
    send_frame (send_env EB_ErrorBadParameter) (Some frame0);
    send_frame (send_env EB_ErrorNone) None;
    receive_packet receive_key pkt0;
    receive_packet receive_eos pkt0 ].

(** The context these calls leave. *)
Definition avctx_two_frames : AVCodecContext := after two_frames avctx1.

End Cases.

(** * Properties *)

(** ** Conversions that keep the value *)

Lemma cast_fits (t : ctype) (v : Z) : fits t v -> cast t v = v.
Proof.
  unfold fits, cast, min_val, max_val.
  destruct t; cbn; intros Hv; try (apply Z.mod_small; lia);
    rewrite Z.mod_small; lia.
Qed.

(** Every integer type holds the values from 0 to 127. *)
Lemma fits_7_bits (t : ctype) (v : Z) : 0 <= v <= 127 -> fits t v.
Proof.
  unfold fits, min_val, max_val; destruct t; cbn; lia.
Qed.

Lemma cast_7_bits (t : ctype) (v : Z) : 0 <= v <= 127 -> cast t v = v.
Proof. intros Hv; apply cast_fits, fits_7_bits, Hv. Qed.

Lemma options_in_range_inv (svt_enc : SvtContext) :
  options_in_range svt_enc ->
  0 <= enc_mode svt_enc <= 9 /\
  0 <= level svt_enc <= 255 /\
  0 <= tune svt_enc <= 2 /\
  0 <= rc_mode svt_enc <= 2 /\
  0 <= qp svt_enc <= 51 /\
  0 <= base_layer_switch_mode svt_enc <= 1 /\
  -1 <= forced_idr svt_enc <= 1.
Proof.
  unfold options_in_range, options; intros Hall.
  repeat match goal with
         | Hf : Forall _ (_ :: _) |- _ =>
             apply Forall_cons_iff in Hf; destruct Hf as [? Hf]
         end.
  cbn in *; repeat split; lia.
Qed.

Section StoreFacts.
Context `{EngineHeader}.

Lemma store_same (s : Eb.ints) (f : Eb.field) (v : Z) :
  store s f v f = cast (field_type f) v.
Proof. unfold store; destruct f; reflexivity. Qed.

Lemma store_other (s : Eb.ints) (f g : Eb.field) (v : Z) :
  Eb.field_eqb g f = false -> store s f v g = s g.
Proof. unfold store; intros ->; reflexivity. Qed.

End StoreFacts.

(** ** config_enc_params *)

Section ConfigurationFacts.
Context `{HostFramework} `{EngineHeader}.

(** Splits on the branches of [config_enc_params] and evaluates the
    stores at the fields the goal reads. *)
Ltac config_cases avctx :=
  unfold config_enc_params;
  destruct (pix_fmt avctx) eqn:Hfmt;
  destruct (0 <? gop_size avctx) eqn:Hgop;
  destruct ((0 <? num (framerate avctx)) && (0 <? den (framerate avctx)))
    eqn:Hrate;
  match goal with
  | |- context [alloc_buffer ?m ?p ?c] => destruct (alloc_buffer m p c)
  end;
  cbv beta iota zeta delta [fst snd store Eb.field_eqb negb Z.eqb];
  repeat match goal with
         | |- context [if ?b then _ else _] => destruct b
         end.

Lemma frame_rate_selected (avctx : AVCodecContext) :
  (0 <? num (framerate avctx)) && (0 <? den (framerate avctx)) = true <->
  0 < num (framerate avctx) /\ 0 < den (framerate avctx).
Proof. rewrite andb_true_iff, !Z.ltb_lt; reflexivity. Qed.

(** C4: [config_enc_params] copies the user options [enc_mode], [level],
    [rc_mode], [tune], [base_layer_switch_mode] and [qp] of the adapter
    context into the fields [enc_mode], [level], [rate_control_mode],
    [tune], [base_layer_switch_mode] and [qp] of the engine configuration
    unchanged, for every value the option table admits, whatever the
    integer types of these fields are, as long as the [level] field can
    hold the largest level, 0xff. *)
Theorem config_enc_params_copies_options (mem : Allocator)
    (param : EbSvtVp9EncConfiguration) (avctx : AVCodecContext) :
  let svt_enc := priv_data avctx in
  let param' := snd (fst (config_enc_params mem param avctx)) in
  options_in_range svt_enc ->
  fits (field_type Eb.level) 0xff ->
  param' Eb.enc_mode = enc_mode svt_enc /\
  param' Eb.level = level svt_enc /\
  param' Eb.rate_control_mode = rc_mode svt_enc /\
  param' Eb.tune = tune svt_enc /\
  param' Eb.base_layer_switch_mode = base_layer_switch_mode svt_enc /\
  param' Eb.qp = qp svt_enc.
Proof.
  intros svt_enc param' Hopts Hlevel.
  apply options_in_range_inv in Hopts.
  destruct Hopts as (Hmode & Hlev & Htune & Hrc & Hqp & Hbl & _).
  assert (Elevel : cast (field_type Eb.level) (level svt_enc) = level svt_enc).
  { apply cast_fits. destruct (field_type Eb.level);
      unfold fits, min_val, max_val in *; cbn in *; lia. }
  subst param'; config_cases avctx;
    (repeat split; [ apply cast_7_bits; fold svt_enc; lia
                   | exact Elevel
                   | apply cast_7_bits; fold svt_enc; lia .. ]).
Qed.

(** C5: [config_enc_params] derives the engine frame rate as follows.  If
    [framerate.num] and [framerate.den] are both positive, the numerator
    is [framerate.num] and the denominator is [framerate.den] times
    [ticks_per_frame]; otherwise the numerator is [time_base.den] and the
    denominator is [time_base.num] times [ticks_per_frame].  The product
    is the product of two [int], and each value is converted to the type
    of its field; where the values are representable, the fields hold
    them exactly. *)
Theorem config_enc_params_frame_rate (mem : Allocator)
    (param : EbSvtVp9EncConfiguration) (avctx : AVCodecContext) :
  let param' := snd (fst (config_enc_params mem param avctx)) in
  let positive :=
    0 < num (framerate avctx) /\ 0 < den (framerate avctx) in
  let assigned (n d : Z) :=
    param' Eb.frame_rate_numerator
      = cast (field_type Eb.frame_rate_numerator) n /\
    param' Eb.frame_rate_denominator
      = cast (field_type Eb.frame_rate_denominator)
          (cast int (d * ticks_per_frame avctx)) in
  let exactly (n d : Z) :=
    fits (field_type Eb.frame_rate_numerator) n ->
    fits int (d * ticks_per_frame avctx) ->
    fits (field_type Eb.frame_rate_denominator)
      (d * ticks_per_frame avctx) ->
    param' Eb.frame_rate_numerator = n /\
    param' Eb.frame_rate_denominator = d * ticks_per_frame avctx in
  (positive ->
     assigned (num (framerate avctx)) (den (framerate avctx)) /\
     exactly (num (framerate avctx)) (den (framerate avctx))) /\
  (~ positive ->
     assigned (den (time_base avctx)) (num (time_base avctx)) /\
     exactly (den (time_base avctx)) (num (time_base avctx))).
Proof.
  intros param' positive assigned exactly.
  assert (Hexact : forall n d, assigned n d -> exactly n d).
  { intros n d [En Ed] Hn Hint Hd.
    rewrite En, Ed, (cast_fits int), !cast_fits; auto. }
  assert (Hassigned :
    (positive ->
       assigned (num (framerate avctx)) (den (framerate avctx))) /\
    (~ positive ->
       assigned (den (time_base avctx)) (num (time_base avctx)))).
  { subst assigned positive param'; cbv beta.
    split; intros Hpos; apply frame_rate_selected in Hpos
    || (rewrite <- frame_rate_selected in Hpos;
        apply not_true_is_false in Hpos);
      config_cases avctx; solve [split; reflexivity | congruence]. }
  destruct Hassigned as [Hyes Hno].
  split; intros Hpos; split; auto.
Qed.

(** C7: [config_enc_params] sets [encoder_bit_depth] of the engine
    configuration to 10 exactly when the pixel format is
    [AV_PIX_FMT_YUV420P10LE]; for any other pixel format the field is
    left at its prior value. *)
Theorem config_enc_params_bit_depth (mem : Allocator)
    (param : EbSvtVp9EncConfiguration) (avctx : AVCodecContext) :
  let param' := snd (fst (config_enc_params mem param avctx)) in
  (pix_fmt avctx = AV_PIX_FMT_YUV420P10LE ->
     param' Eb.encoder_bit_depth = 10) /\
  (pix_fmt avctx <> AV_PIX_FMT_YUV420P10LE ->
     param' Eb.encoder_bit_depth = param Eb.encoder_bit_depth).
Proof.
  intros param'; subst param'.
  split; intros Hpix; config_cases avctx;
    solve [ reflexivity | congruence | apply cast_7_bits; lia ].
Qed.

End ConfigurationFacts.

(** ** error_mapping and its caller *)

Section ErrorFacts.
Context `{HostFramework} `{EngineHeader}.

Lemma alloc_buffer_ret (mem : Allocator) (config : EbSvtVp9EncConfiguration)
    (svt_enc : SvtContext) :
  fst (alloc_buffer mem config svt_enc)
  = if alloc_ok mem then 0 else AVERROR ENOMEM.
Proof.
  unfold alloc_buffer, alloc_ok.
  destruct (av_mallocz_in_buf mem), (av_mallocz_in_data mem),
    (av_buffer_pool_init mem); reflexivity.
Qed.

Lemma config_enc_params_ret (mem : Allocator)
    (param : EbSvtVp9EncConfiguration) (avctx : AVCodecContext) :
  fst (fst (config_enc_params mem param avctx))
  = if alloc_ok mem then 0 else AVERROR ENOMEM.
Proof.
  unfold config_enc_params.
  match goal with
  | |- context [alloc_buffer ?m ?p ?c] =>
      rewrite <- (alloc_buffer_ret m p c); destruct (alloc_buffer m p c)
  end.
  reflexivity.
Qed.

Lemma is_EB_ErrorNone_true (e : EbErrorType) :
  is_EB_ErrorNone e = true -> e = EB_ErrorNone.
Proof. destruct e; intros E; solve [reflexivity | discriminate E]. Qed.

Lemma AVERROR_not_EB_ErrorNone (e : errno) :
  is_EB_ErrorNone (EbErrorType_of_int (AVERROR e)) = false.
Proof.
  destruct (is_EB_ErrorNone _) eqn:E; [ | reflexivity ].
  apply is_EB_ErrorNone_true, EbErrorType_of_int_zero in E.
  pose proof (AVERROR_negative e); lia.
Qed.

Ltac distinct_calls :=
  repeat constructor; cbn; intuition discriminate.

(** [eb_enc_init] answers with the translation of the first failure, after
    a log in which no entry point occurs twice. *)
Lemma eb_enc_init_passes_through (env : InitEnv) (avctx : AVCodecContext) :
  exists svt_enc,
    result (eb_enc_init env avctx)
    = Some (error_mapping (first_failure env), svt_enc) /\
    NoDup (map entry_point (calls (eb_enc_init env avctx))).
Proof.
  unfold eb_enc_init, first_failure.
  match goal with
  | |- context [config_enc_params ?m ?p ?c] =>
      pose proof (config_enc_params_ret m p c) as Hret;
      destruct (config_enc_params m p c) as [[r param] svt_enc]
  end.
  cbn [fst] in Hret; subst r.
  cbv beta iota zeta delta [bind call ret].
  destruct (is_EB_ErrorNone (init_handle_ret env)) eqn:E1; cbn.
  2: { eexists; split; [ reflexivity | distinct_calls ]. }
  destruct (alloc_ok (init_mem env)) eqn:E2; cbn.
  2: { rewrite AVERROR_not_EB_ErrorNone; cbn.
       eexists; split; [ reflexivity | distinct_calls ]. }
  replace (is_EB_ErrorNone (EbErrorType_of_int 0)) with true
    by (symmetry; rewrite (proj2 (EbErrorType_of_int_zero 0) eq_refl);
        reflexivity).
  cbn.
  destruct (is_EB_ErrorNone (set_parameter_ret env)) eqn:E3; cbn.
  2: { eexists; split; [ reflexivity | distinct_calls ]. }
  destruct (is_EB_ErrorNone (init_encoder_ret env)) eqn:E4; cbn.
  - apply is_EB_ErrorNone_true in E4; rewrite E4.
    eexists; split; [ reflexivity | distinct_calls ].
  - eexists; split; [ reflexivity | distinct_calls ].
Qed.

(** C2: at the engine's empty-queue signal [EB_NoErrorEmptyQueue],
    [error_mapping] assigns [AVERROR(EAGAIN)] and, for want of a [break],
    goes on into the case [EB_ErrorNone]: it returns 0, which is not the
    framework's retry code.  [EB_ErrorNone] is mapped to 0. *)
Theorem error_mapping_empty_queue_falls_through :
  error_mapping EB_NoErrorEmptyQueue = 0 /\
  error_mapping EB_NoErrorEmptyQueue <> AVERROR EAGAIN /\
  error_mapping EB_ErrorNone = 0.
Proof.
  repeat split; cbn.
  pose proof (AVERROR_negative EAGAIN); lia.
Qed.

(** C6: [error_mapping] translates [EB_ErrorInsufficientResources] to
    [AVERROR(ENOMEM)]; [EB_ErrorUndefined], [EB_ErrorInvalidComponent] and
    [EB_ErrorBadParameter] to [AVERROR(EINVAL)]; the thread, semaphore
    and mutex failures to [AVERROR_EXTERNAL]; every value without a case
    of its own to [AVERROR_UNKNOWN].  Its caller [eb_enc_init] returns
    the translation of the first failing step as it is and calls no
    entry point of the engine a second time. *)
Theorem error_mapping_translation :
  error_mapping EB_ErrorInsufficientResources = AVERROR ENOMEM /\
  (error_mapping EB_ErrorUndefined = AVERROR EINVAL /\
   error_mapping EB_ErrorInvalidComponent = AVERROR EINVAL /\
   error_mapping EB_ErrorBadParameter = AVERROR EINVAL) /\
  (error_mapping EB_ErrorDestroyThreadFailed = AVERROR_EXTERNAL /\
   error_mapping EB_ErrorSemaphoreUnresponsive = AVERROR_EXTERNAL /\
   error_mapping EB_ErrorDestroySemaphoreFailed = AVERROR_EXTERNAL /\
   error_mapping EB_ErrorCreateMutexFailed = AVERROR_EXTERNAL /\
   error_mapping EB_ErrorMutexUnresponsive = AVERROR_EXTERNAL /\
   error_mapping EB_ErrorDestroyMutexFailed = AVERROR_EXTERNAL) /\
  (forall code, error_mapping (EB_ErrorOther code) = AVERROR_UNKNOWN) /\
  (forall env avctx, exists svt_enc,
      result (eb_enc_init env avctx)
      = Some (error_mapping (first_failure env), svt_enc) /\
      NoDup (map entry_point (calls (eb_enc_init env avctx)))).
Proof.
  repeat split; try reflexivity.
  intros env avctx; apply eb_enc_init_passes_through.
Qed.

End ErrorFacts.

(** ** eb_send_frame and eb_receive_packet *)

Section CallbackFacts.
Context `{HostFramework} `{EngineHeader}.

Lemma read_in_data_ready (config : EbSvtVp9EncConfiguration)
    (frame : AVFrame.t) (header : EbBufferHeaderType)
    (in_data : EbSvtEncInput) :
  p_buffer header = input_data in_data ->
  exists header' in_data',
    read_in_data config frame header = Some header' /\
    p_buffer header' = input_data in_data'.
Proof.
  intros Hbuf; unfold read_in_data; rewrite Hbuf.
  eexists; eexists; split; reflexivity.
Qed.

Lemma in_buf_ready_inv (svt_enc : SvtContext) :
  in_buf_ready svt_enc ->
  exists header in_data,
    in_buf svt_enc = Some header /\ p_buffer header = input_data in_data.
Proof.
  unfold in_buf_ready.
  destruct (in_buf svt_enc) as [header | ]; [ | contradiction ].
  destruct (p_buffer header) as [ | in_data | bytes ] eqn:Hbuf;
    try contradiction.
  intros _; exists header, in_data; auto.
Qed.

(** A successful initialisation leaves the input buffer ready and the
    flag at [EOS_NOT_REACHED]. *)
Lemma eb_enc_init_ready (env : InitEnv) (avctx : AVCodecContext) :
  first_failure env = EB_ErrorNone ->
  exists svt_enc,
    result (eb_enc_init env avctx) = Some (0, svt_enc) /\
    in_buf_ready svt_enc /\ eos_flag svt_enc = EOS_NOT_REACHED.
Proof.
  unfold first_failure, eb_enc_init.
  pose proof (AVERROR_not_EB_ErrorNone ENOMEM) as Hnomem.
  match goal with
  | |- context [config_enc_params ?m ?p ?c] =>
      pose proof (config_enc_params_ret m p c) as Hret;
      unfold config_enc_params in *;
      match goal with
      | |- context [alloc_buffer m ?q ?d] =>
          unfold alloc_buffer, alloc_ok in *
      end
  end.
  cbv beta iota zeta delta [bind call ret] in *.
  destruct (is_EB_ErrorNone (init_handle_ret env)) eqn:E1; cbn;
    [ | intros E; rewrite E in E1; discriminate E1 ].
  destruct (av_mallocz_in_buf (init_mem env)),
    (av_mallocz_in_data (init_mem env)),
    (av_buffer_pool_init (init_mem env)); cbn;
    try (intros E; rewrite E in Hnomem; discriminate Hnomem).
  replace (is_EB_ErrorNone (EbErrorType_of_int 0)) with true
    by (symmetry; rewrite (proj2 (EbErrorType_of_int_zero 0) eq_refl);
        reflexivity).
  cbn.
  destruct (is_EB_ErrorNone (set_parameter_ret env)) eqn:E3; cbn;
    [ | intros E; rewrite E in E3; discriminate E3 ].
  intros E; rewrite E; cbn.
  eexists; split; [ reflexivity | split; [ exact I | reflexivity ] ].
Qed.

Lemma free_buffer_eos_flag (svt_enc : SvtContext) :
  eos_flag (free_buffer svt_enc) = eos_flag svt_enc.
Proof. unfold free_buffer; destruct (in_buf svt_enc); reflexivity. Qed.

(** Whatever it returns, [eb_enc_init] leaves the flag at
    [EOS_NOT_REACHED]. *)
Lemma eb_enc_init_eos_flag (env : InitEnv) (avctx : AVCodecContext)
    (r : Z) (svt_enc : SvtContext) :
  result (eb_enc_init env avctx) = Some (r, svt_enc) ->
  eos_flag svt_enc = EOS_NOT_REACHED.
Proof.
  unfold eb_enc_init.
  match goal with
  | |- context [config_enc_params ?m ?p ?c] =>
      assert (Hflag : eos_flag (snd (config_enc_params m p c))
                      = EOS_NOT_REACHED)
        by (unfold config_enc_params, alloc_buffer;
            destruct (av_mallocz_in_buf m), (av_mallocz_in_data m),
              (av_buffer_pool_init m); reflexivity);
      destruct (config_enc_params m p c) as [[r0 param] svt_enc0]
  end.
  cbn [snd] in Hflag.
  cbv beta iota zeta delta [bind call ret result].
  repeat match goal with
         | |- context [if ?b then _ else _] => destruct b; cbn
         end;
    intros E; injection E as _ <-;
    rewrite ?free_buffer_eos_flag; cbn;
    solve [ reflexivity | exact Hflag ].
Qed.

(** The callbacks keep the input buffer of the context ready. *)
Lemma step_in_buf_ready (avctx avctx' : AVCodecContext) (c : api_call) :
  step avctx c = Some avctx' ->
  in_buf_ready (priv_data avctx) -> in_buf_ready (priv_data avctx').
Proof.
  destruct c as [env frame | env pkt]; unfold step.
  - unfold eb_send_frame.
    cbv beta iota zeta delta [bind call ret lift undefined result].
    destruct frame as [frame | ]; cbn.
    + destruct (in_buf (priv_data avctx)) as [header | ]; cbn;
        [ | discriminate ].
      unfold read_in_data.
      destruct (p_buffer header) as [ | in_data | bytes ]; cbn;
        try discriminate.
      intros E; injection E as <-; intros _; exact I.
    + intros E; injection E as <-; intros Hready; exact Hready.
  - unfold eb_receive_packet.
    cbv beta iota zeta delta [bind call ret lift undefined result].
    repeat match goal with
           | |- context [match ?b with _ => _ end] =>
               match type of b with
               | bool => destruct b
               | option _ => destruct b
               end; cbn; try discriminate
           end;
      intros E; injection E as <-; intros Hready; exact Hready.
Qed.

(** C3: whenever the end-of-stream flag of the context is
    [EOS_TOTRIGGER], [eb_receive_packet] returns [AVERROR_EOF]; the
    packet and the context are as before and no call is made, neither to
    the engine nor to the buffer pool. *)
Theorem eb_receive_packet_after_trigger (env : ReceiveEnv)
    (avctx : AVCodecContext) (pkt : AVPacket.t) :
  eos_flag (priv_data avctx) = EOS_TOTRIGGER ->
  eb_receive_packet env avctx pkt
  = Some (AVERROR_EOF, priv_data avctx, pkt, []).
Proof.
  intros Hflag; unfold eb_receive_packet; rewrite Hflag; reflexivity.
Qed.

Lemma EOS_STATUS_eqb_neq (a b : EOS_STATUS) :
  a <> b -> EOS_STATUS_eqb a b = false.
Proof. destruct a, b; intros Hne; solve [reflexivity | congruence]. Qed.

Lemma is_EB_NoErrorEmptyQueue_neq (e : EbErrorType) :
  e <> EB_NoErrorEmptyQueue -> is_EB_NoErrorEmptyQueue e = false.
Proof. destruct e; intros Hne; solve [reflexivity | congruence]. Qed.

(** C9: if the engine hands out a packet and [av_buffer_pool_get] then
    fails, [eb_receive_packet] releases the engine's output buffer and
    returns [AVERROR(ENOMEM)]; the context, and with it the end-of-stream
    flag, and the packet are as before, whatever flags the engine's
    packet carries, [EB_BUFFERFLAG_EOS] included. *)
Theorem eb_receive_packet_pool_failure (env : ReceiveEnv)
    (avctx : AVCodecContext) (pkt : AVPacket.t) :
  let svt_enc := priv_data avctx in
  eos_flag svt_enc <> EOS_TOTRIGGER ->
  get_packet_ret env <> EB_NoErrorEmptyQueue ->
  pool_get_ref env = None ->
  eb_receive_packet env avctx pkt
  = Some (AVERROR ENOMEM, svt_enc, pkt,
          [ eb_vp9_svt_get_packet (svt_handle svt_enc)
              (EOS_STATUS_value (eos_flag svt_enc));
            av_buffer_pool_get (pool svt_enc);
            eb_vp9_svt_release_out_buffer (get_packet_header env) ]).
Proof.
  intros svt_enc Hflag Hret Hpool; subst svt_enc.
  unfold eb_receive_packet.
  rewrite (EOS_STATUS_eqb_neq EOS_TOTRIGGER)
    by (intros E; apply Hflag; symmetry; exact E).
  cbv beta iota zeta delta [bind call ret].
  rewrite (is_EB_NoErrorEmptyQueue_neq _ Hret), Hpool.
  reflexivity.
Qed.

(** C8: [eb_send_frame] returns 0 for a null frame and for any frame:
    whatever [eb_vp9_svt_enc_send_picture] answers, the result, the
    context and the calls made are the same.  (For a frame, the input
    buffer of the context has to be allocated, as it is after
    [eb_enc_init].) *)
Theorem eb_send_frame_returns_0 (declared : EbBufferHeaderType)
    (avctx : AVCodecContext) (frame : option AVFrame.t) :
  (frame <> None -> in_buf_ready (priv_data avctx)) ->
  exists svt_enc log,
    forall answer : EbErrorType,
      eb_send_frame
        {| send_picture_ret := answer; headerPtrLast_declared := declared |}
        avctx frame
      = Some (0, svt_enc, log).
Proof.
  intros Hready; unfold eb_send_frame.
  destruct frame as [frame | ].
  - destruct (in_buf_ready_inv _ (Hready ltac:(discriminate)))
      as (header & in_data & Hbuf & Hdata).
    destruct (read_in_data_ready (enc_params (priv_data avctx)) frame
                header in_data Hdata) as (header' & _ & Hread & _).
    rewrite Hbuf; cbn; rewrite Hread; cbn.
    eexists; eexists; intros answer; reflexivity.
  - cbn; eexists; eexists; intros answer; reflexivity.
Qed.

(** C10: for a frame, [eb_send_frame] hands the engine a header whose
    picture type is [EB_IDR_PICTURE] for type I when [forced_idr] is
    positive and [EB_I_PICTURE] for type I otherwise, [EB_P_PICTURE] for
    type P, [EB_B_PICTURE] for type B and [EB_INVALID_PICTURE] for every
    other type. *)
Theorem eb_send_frame_pic_type (env : SendEnv) (avctx : AVCodecContext)
    (frame : AVFrame.t) :
  let svt_enc := priv_data avctx in
  in_buf_ready svt_enc ->
  exists header svt_enc',
    eb_send_frame env avctx (Some frame)
    = Some (0, svt_enc',
            [eb_vp9_svt_enc_send_picture (svt_handle svt_enc) header]) /\
    in_buf svt_enc' = Some header /\
    pic_type header =
      match AVFrame.pict_type frame with
      | AV_PICTURE_TYPE_I =>
          if 0 <? forced_idr svt_enc then EB_IDR_PICTURE else EB_I_PICTURE
      | AV_PICTURE_TYPE_P => EB_P_PICTURE
      | AV_PICTURE_TYPE_B => EB_B_PICTURE
      | AV_PICTURE_TYPE_NONE | AV_PICTURE_TYPE_S | AV_PICTURE_TYPE_SI
      | AV_PICTURE_TYPE_SP | AV_PICTURE_TYPE_BI => EB_INVALID_PICTURE
      end.
Proof.
  intros svt_enc Hready; unfold eb_send_frame.
  destruct (in_buf_ready_inv _ Hready) as (header & in_data & Hbuf & Hdata).
  destruct (read_in_data_ready (enc_params svt_enc) frame header in_data
              Hdata) as (header' & _ & Hread & _).
  fold svt_enc; rewrite Hbuf; cbn; rewrite Hread; cbn.
  eexists; eexists; split; [ reflexivity | split; [ reflexivity | ] ].
  cbn; destruct (AVFrame.pict_type frame); reflexivity.
Qed.

End CallbackFacts.

(** ** The end-of-stream flag along a sequence of calls *)

Section EndOfStream.
Context `{HostFramework} `{EngineHeader}.

Local Notation "a '<=eos' b" :=
  (EOS_STATUS_value a <= EOS_STATUS_value b) (at level 70).

Lemma EOS_TOTRIGGER_last (e : EOS_STATUS) : e <=eos EOS_TOTRIGGER.
Proof. destruct e; cbn; lia. Qed.

(** [eb_receive_packet] keeps the flag or moves it to [EOS_TOTRIGGER]. *)
Lemma eb_receive_packet_eos_flag (env : ReceiveEnv)
    (avctx : AVCodecContext) (pkt pkt' : AVPacket.t) (r : Z)
    (svt_enc : SvtContext) :
  result (eb_receive_packet env avctx pkt) = Some (r, svt_enc, pkt') ->
  eos_flag svt_enc = eos_flag (priv_data avctx) \/
  eos_flag svt_enc = EOS_TOTRIGGER.
Proof.
  unfold eb_receive_packet.
  cbv beta iota zeta delta [bind call ret lift undefined result].
  destruct (EOS_STATUS_eqb _ _); cbn.
  { intros E; injection E as _ <- _; left; reflexivity. }
  destruct (is_EB_NoErrorEmptyQueue _); cbn.
  { intros E; injection E as _ <- _; left; reflexivity. }
  destruct (pool_get_ref env) as [ref | ]; cbn.
  2: { intros E; injection E as _ <- _; left; reflexivity. }
  destruct (memcpy _ _ _) as [bytes | ]; cbn; [ | discriminate ].
  destruct (EB_BUFFERFLAG_EOS =? _); cbn;
    intros E; injection E as _ <- _; [ right | left ]; reflexivity.
Qed.

(** [eb_send_frame] keeps the flag for a frame and sets it to
    [EOS_REACHED] for a null frame, whatever it was. *)
Lemma eb_send_frame_eos_flag (env : SendEnv) (avctx : AVCodecContext)
    (frame : option AVFrame.t) (r : Z) (svt_enc : SvtContext) :
  result (eb_send_frame env avctx frame) = Some (r, svt_enc) ->
  eos_flag svt_enc
  = match frame with
    | Some _ => eos_flag (priv_data avctx)
    | None => EOS_REACHED
    end.
Proof.
  unfold eb_send_frame.
  cbv beta iota zeta delta [bind call ret lift undefined result].
  destruct frame as [frame | ]; cbn.
  - destruct (in_buf (priv_data avctx)) as [header | ]; cbn;
      [ | discriminate ].
    destruct (read_in_data _ _ _) as [header' | ]; cbn;
      [ | discriminate ].
    intros E; injection E as _ <-; reflexivity.
  - intros E; injection E as _ <-; reflexivity.
Qed.

Lemma step_eos_flag (avctx avctx' : AVCodecContext) (c : api_call) :
  step avctx c = Some avctx' ->
  is_null_frame c
  && EOS_STATUS_eqb EOS_TOTRIGGER (eos_flag (priv_data avctx)) = false ->
  eos_flag (priv_data avctx) <=eos eos_flag (priv_data avctx').
Proof.
  destruct c as [env frame | env pkt]; unfold step.
  - destruct (result (eb_send_frame env avctx frame)) as [[r svt_enc] | ]
      eqn:Hsend; cbn; [ | discriminate ].
    intros E; injection E as <-; cbn.
    rewrite (eb_send_frame_eos_flag _ _ _ _ _ Hsend).
    destruct frame as [frame | ]; cbn; [ lia | ].
    destruct (eos_flag (priv_data avctx)); cbn; intros; (lia || discriminate).
  - destruct (result (eb_receive_packet env avctx pkt))
      as [[[r svt_enc] pkt'] | ] eqn:Hrecv; cbn; [ | discriminate ].
    intros E; injection E as <-; cbn; intros _.
    destruct (eb_receive_packet_eos_flag _ _ _ _ _ _ Hrecv) as [-> | ->];
      [ lia | apply EOS_TOTRIGGER_last ].
Qed.

Lemma eos_trace_never_regresses (cs : list api_call) :
  forall avctx,
    null_frames_before_trigger cs avctx = true ->
    never_regresses (eos_flag (priv_data avctx)) (eos_trace cs avctx) = true.
Proof.
  induction cs as [ | c cs IH]; intros avctx; cbn; [ reflexivity | ].
  destruct (step avctx c) as [avctx' | ] eqn:Hstep; [ | reflexivity ].
  rewrite andb_true_iff, negb_true_iff; intros [Hnull Hrest]; cbn.
  rewrite (IH avctx' Hrest), andb_true_r.
  apply Z.leb_le, (step_eos_flag _ _ _ Hstep Hnull).
Qed.

(** C1, as amended: after [eb_enc_init], along every sequence of calls of
    [eb_send_frame] and [eb_receive_packet] in which no null frame is
    submitted while the flag is [EOS_TOTRIGGER], the end-of-stream flag
    starts at [EOS_NOT_REACHED] and only moves forward along
    [EOS_NOT_REACHED], [EOS_REACHED], [EOS_TOTRIGGER]. *)
Theorem eos_flag_moves_forward (init : InitEnv) (avctx0 : AVCodecContext)
    (r : Z) (svt_enc : SvtContext) (cs : list api_call) :
  let avctx := set_priv_data avctx0 svt_enc in
  result (eb_enc_init init avctx0) = Some (r, svt_enc) ->
  null_frames_before_trigger cs avctx = true ->
  never_regresses EOS_NOT_REACHED (eos_trace cs avctx) = true.
Proof.
  intros avctx Hinit Hnull.
  rewrite <- (eb_enc_init_eos_flag _ _ _ _ Hinit).
  apply (eos_trace_never_regresses cs avctx Hnull).
Qed.

End EndOfStream.

(** ** Concrete runs *)

Section ConcreteRuns.
Import Demo.
Local Existing Instance host.
Local Existing Instance engine.

(** C1, as stated, fails: after a successful [eb_enc_init], the null
    frame moves the flag to [EOS_REACHED], the engine's last packet moves
    it to [EOS_TOTRIGGER], and a second null frame moves it back to
    [EOS_REACHED]. *)
Lemma eos_flag_regresses_on_second_null_frame :
  result (eb_enc_init init_ok avctx0) = Some (0, priv_data avctx1) /\
  eos_trace drain_twice avctx1
  = [EOS_REACHED; EOS_TOTRIGGER; EOS_REACHED] /\
  never_regresses EOS_NOT_REACHED (eos_trace drain_twice avctx1) = false.
Proof. repeat split. Qed.

Lemma eos_flag_moves_forward_witness :
  null_frames_before_trigger encode_and_drain avctx1 = true /\
  eos_trace encode_and_drain avctx1
  = [EOS_NOT_REACHED; EOS_REACHED; EOS_TOTRIGGER; EOS_TOTRIGGER] /\
  never_regresses EOS_NOT_REACHED (eos_trace encode_and_drain avctx1)
  = true.
Proof.
  split; [ reflexivity | split; [ reflexivity | ] ].
  apply (eos_flag_moves_forward init_ok avctx0 0 (priv_data avctx1)
           encode_and_drain); reflexivity.
Defined.

Lemma eb_receive_packet_after_trigger_witness :
  eos_flag (priv_data avctx_drained) = EOS_TOTRIGGER /\
  eb_receive_packet receive_eos avctx_drained pkt0
  = Some (AVERROR_EOF, priv_data avctx_drained, pkt0, []).
Proof.
  split; [ reflexivity | ].
  apply (eb_receive_packet_after_trigger receive_eos avctx_drained pkt0).
  reflexivity.
Defined.

Lemma eb_receive_packet_pool_failure_witness :
  hdr (get_packet_header receive_eos_no_memory) Eb.flags
  = EB_BUFFERFLAG_EOS /\
  eos_flag (priv_data avctx_draining) = EOS_REACHED /\
  eb_receive_packet receive_eos_no_memory avctx_draining pkt0
  = Some (AVERROR ENOMEM, priv_data avctx_draining, pkt0,
          [ eb_vp9_svt_get_packet 4096 1;
            av_buffer_pool_get (Some {| pool_size := 4608 |});
            eb_vp9_svt_release_out_buffer eos_header ]).
Proof.
  split; [ reflexivity | split; [ reflexivity | ] ].
  apply (eb_receive_packet_pool_failure receive_eos_no_memory
           avctx_draining pkt0);
    [ discriminate | discriminate | reflexivity ].
Defined.

Lemma config_enc_params_copies_options_witness :
  let param' :=
    snd (fst (config_enc_params (init_mem init_ok) defaults avctx0)) in
  options_in_range svt_enc0 /\
  param' Eb.enc_mode = 9 /\
  param' Eb.level = 0 /\
  param' Eb.rate_control_mode = 0 /\
  param' Eb.tune = 0 /\
  param' Eb.base_layer_switch_mode = 0 /\
  param' Eb.qp = 32.
Proof.
  assert (Hopts : options_in_range svt_enc0)
    by (repeat constructor; cbn; lia).
  split; [ exact Hopts | ].
  apply (config_enc_params_copies_options (init_mem init_ok) defaults
           avctx0 Hopts).
  unfold fits; cbn; lia.
Defined.

Lemma config_enc_params_frame_rate_witness :
  let configured avctx :=
    snd (fst (config_enc_params (init_mem init_ok) defaults avctx)) in
  (configured avctx0 Eb.frame_rate_numerator = 25 /\
   configured avctx0 Eb.frame_rate_denominator = 1 * 1) /\
  (configured avctx_time_base Eb.frame_rate_numerator = 30000 /\
   configured avctx_time_base Eb.frame_rate_denominator = 1001 * 1).
Proof.
  intros configured; split.
  - apply (proj1 (config_enc_params_frame_rate (init_mem init_ok) defaults
                    avctx0));
      solve [ split; reflexivity | unfold fits; cbn; lia ].
  - apply (proj2 (config_enc_params_frame_rate (init_mem init_ok) defaults
                    avctx_time_base));
      solve [ intros [Hnum _]; discriminate Hnum | unfold fits; cbn; lia ].
Defined.

Lemma config_enc_params_bit_depth_witness :
  let configured avctx :=
    snd (fst (config_enc_params (init_mem init_ok) defaults avctx)) in
  configured avctx_10bit Eb.encoder_bit_depth = 10 /\
  configured avctx0 Eb.encoder_bit_depth = defaults Eb.encoder_bit_depth.
Proof.
  intros configured; split.
  - apply (proj1 (config_enc_params_bit_depth (init_mem init_ok) defaults
                    avctx_10bit)); reflexivity.
  - apply (proj2 (config_enc_params_bit_depth (init_mem init_ok) defaults
                    avctx0)); discriminate.
Defined.

Lemma eb_send_frame_returns_0_witness :
  in_buf_ready (priv_data avctx1) /\
  exists svt_enc log,
    forall answer : EbErrorType,
      eb_send_frame (send_env answer) avctx1 (Some frame0)
      = Some (0, svt_enc, log).
Proof.
  split; [ exact I | ].
  apply (eb_send_frame_returns_0 garbage avctx1 (Some frame0)).
  intros _; exact I.
Defined.

Lemma eb_send_frame_pic_type_witness :
  exists header svt_enc',
    eb_send_frame (send_env EB_ErrorNone) avctx1 (Some frame0)
    = Some (0, svt_enc', [eb_vp9_svt_enc_send_picture 4096 header]) /\
    in_buf svt_enc' = Some header /\
    pic_type header = EB_I_PICTURE.
Proof.
  apply (eb_send_frame_pic_type (send_env EB_ErrorNone) avctx1 frame0).
  exact I.
Defined.

End ConcreteRuns.

(** * Further properties *)

(** ** More on conversions *)

Lemma fits_31_bits (t1 t2 : ctype) (v : Z) :
  0 <= v < 2 ^ 31 -> fits (arith_type t1 t2) v.
Proof.
  unfold fits, min_val, max_val; destruct t1, t2; cbn; lia.
Qed.

Lemma cast_size_t (v : Z) : 0 <= v < 2 ^ 64 -> cast size_t v = v.
Proof. intros Hv; apply cast_fits; unfold fits; cbn; lia. Qed.

Lemma cast_uint64_t (v : Z) : 0 <= v < 2 ^ 64 -> cast uint64_t v = v.
Proof. exact (cast_size_t v). Qed.

Lemma cast_int (v : Z) : - 2 ^ 31 <= v < 2 ^ 31 -> cast int v = v.
Proof. intros Hv; apply cast_fits; unfold fits; cbn; lia. Qed.

Lemma mul_small (t1 t2 : ctype) (a b : Z) :
  0 < a -> 0 < b -> a * b < 2 ^ 31 -> mul t1 t2 a b = a * b.
Proof.
  intros Ha Hb Hab; unfold mul.
  assert (Hbound : a <= a * b /\ b <= a * b) by nia.
  rewrite (cast_fits _ a), (cast_fits _ b), cast_fits;
    try apply fits_31_bits; lia.
Qed.

(** ** Buffers *)

Section BufferFacts.
Context `{HostFramework} `{EngineHeader}.

Lemma raw_size_of_alloc_buffer (mem : Allocator)
    (config : EbSvtVp9EncConfiguration) (svt_enc : SvtContext) :
  raw_size (snd (alloc_buffer mem config svt_enc))
  = cast int
      (cast size_t
         (cast size_t
            (cast size_t
               (mul (field_type Eb.source_width) (field_type Eb.source_height)
                  (config Eb.source_width) (config Eb.source_height))
             + (if 8 <? config Eb.encoder_bit_depth
                then cast size_t
                       (mul (field_type Eb.source_width)
                          (field_type Eb.source_height)
                          (config Eb.source_width) (config Eb.source_height))
                else 0)) * 3) / 2).
Proof.
  unfold alloc_buffer, free_buffer.
  destruct (av_mallocz_in_buf mem), (av_mallocz_in_data mem),
    (av_buffer_pool_init mem); reflexivity.
Qed.

(** X1: [alloc_buffer] allocates all or nothing.  When the three
    allocations succeed it returns 0 with the input buffer header and its
    picture descriptor allocated and a pool of buffers of [raw_size] bytes;
    when any of them fails it returns [AVERROR(ENOMEM)], a negative value,
    and leaves both [in_buf] and [pool] NULL. *)
Theorem alloc_buffer_all_or_nothing (mem : Allocator)
    (config : EbSvtVp9EncConfiguration) (svt_enc : SvtContext) :
  let ret := fst (alloc_buffer mem config svt_enc) in
  let svt_enc' := snd (alloc_buffer mem config svt_enc) in
  if av_mallocz_in_buf mem && av_mallocz_in_data mem
     && av_buffer_pool_init mem
  then ret = 0 /\ in_buf_ready svt_enc' /\
       pool svt_enc' = Some {| pool_size := raw_size svt_enc' |}
  else ret = AVERROR ENOMEM /\ ret < 0 /\
       in_buf svt_enc' = None /\ pool svt_enc' = None.
Proof.
  unfold alloc_buffer, free_buffer.
  destruct (av_mallocz_in_buf mem), (av_mallocz_in_data mem),
    (av_buffer_pool_init mem); cbn;
    repeat split; solve [ reflexivity | apply AVERROR_negative ].
Qed.

(** X2: for a picture of positive width and height with fewer than
    [2 ^ 31 / 3] samples, the [raw_size] that [alloc_buffer] computes, and
    with it the size of the pooled output buffers, is the size of one
    picture: width * height * 3 / 2 bytes up to 8 bits per sample, twice
    that above. *)
Theorem alloc_buffer_raw_size (mem : Allocator)
    (config : EbSvtVp9EncConfiguration) (svt_enc : SvtContext) :
  0 < config Eb.source_width ->
  0 < config Eb.source_height ->
  3 * (config Eb.source_width * config Eb.source_height) < 2 ^ 31 ->
  raw_size (snd (alloc_buffer mem config svt_enc)) = picture_bytes config.
Proof.
  intros Hw Hh Hsmall.
  rewrite raw_size_of_alloc_buffer; unfold picture_bytes.
  set (w := config Eb.source_width) in *.
  set (h := config Eb.source_height) in *.
  rewrite (mul_small _ _ w h) by nia.
  assert (Hwh : 0 < w * h) by nia.
  set (samples := w * h) in *.
  rewrite (cast_size_t samples) by lia.
  destruct (8 <? config Eb.encoder_bit_depth).
  - rewrite (cast_size_t (samples + samples)) by lia.
    rewrite (cast_size_t ((samples + samples) * 3)) by lia.
    replace ((samples + samples) * 3) with (2 * samples * 3) by lia.
    apply cast_int; split.
    + pose proof (Z.div_pos (2 * samples * 3) 2); lia.
    + apply Z.div_lt_upper_bound; lia.
  - rewrite Z.add_0_r, (cast_size_t samples) by lia.
    rewrite (cast_size_t (samples * 3)) by lia.
    apply cast_int; split.
    + pose proof (Z.div_pos (samples * 3) 2); lia.
    + apply Z.div_lt_upper_bound; lia.
Qed.

End BufferFacts.

(** ** More of config_enc_params *)

Section MoreConfigurationFacts.
Context `{HostFramework} `{EngineHeader}.

Ltac config_branches avctx :=
  unfold config_enc_params;
  destruct (pix_fmt avctx);
  destruct (0 <? gop_size avctx) eqn:Hgop;
  destruct ((0 <? num (framerate avctx)) && (0 <? den (framerate avctx)));
  match goal with
  | |- context [alloc_buffer ?m ?p ?c] => destruct (alloc_buffer m p c)
  end;
  cbv beta iota zeta delta [fst snd store Eb.field_eqb negb Z.eqb].

(** X3: [config_enc_params] copies the picture width, the picture height
    and the bit rate of the codec context into [source_width],
    [source_height] and [target_bit_rate] of the engine configuration,
    unchanged where the field can represent the value. *)
Theorem config_enc_params_picture (mem : Allocator)
    (param : EbSvtVp9EncConfiguration) (avctx : AVCodecContext) :
  let param' := snd (fst (config_enc_params mem param avctx)) in
  fits (field_type Eb.source_width) (width avctx) ->
  fits (field_type Eb.source_height) (height avctx) ->
  fits (field_type Eb.target_bit_rate) (bit_rate avctx) ->
  param' Eb.source_width = width avctx /\
  param' Eb.source_height = height avctx /\
  param' Eb.target_bit_rate = bit_rate avctx.
Proof.
  intros param' Hw Hh Hb; subst param'.
  config_branches avctx;
    repeat match goal with
           | |- context [if ?b then _ else _] => destruct b
           end;
    repeat split; apply cast_fits; assumption.
Qed.

(** X4: [config_enc_params] sets [intra_period] to [gop_size - 1] when
    [gop_size] is positive and leaves the field as the engine set it when
    [gop_size] is zero or negative. *)
Theorem config_enc_params_intra_period (mem : Allocator)
    (param : EbSvtVp9EncConfiguration) (avctx : AVCodecContext) :
  let param' := snd (fst (config_enc_params mem param avctx)) in
  fits int (gop_size avctx) ->
  (0 < gop_size avctx ->
     fits (field_type Eb.intra_period) (gop_size avctx - 1) ->
     param' Eb.intra_period = gop_size avctx - 1) /\
  (gop_size avctx <= 0 ->
     param' Eb.intra_period = param Eb.intra_period).
Proof.
  intros param' Hint; subst param'.
  assert (Hcast : 0 < gop_size avctx ->
                  cast int (gop_size avctx - 1) = gop_size avctx - 1).
  { intros Hpos; apply cast_int.
    unfold fits, min_val, max_val in Hint; cbn in Hint; lia. }
  split; [ intros Hpos Hfits | intros Hle ];
    config_branches avctx;
    repeat match goal with
           | |- context [if ?b then _ else _] => destruct b
           end;
    try (apply Z.ltb_lt in Hgop); try (apply Z.ltb_ge in Hgop);
    try lia; try reflexivity;
    rewrite Hcast by assumption; apply cast_fits; assumption.
Qed.

(** X5: [config_enc_params] hands [qmax] and [qmin] to the engine only
    under rate control: with the "rc" option at 0 (constant QP)
    [max_qp_allowed] and [min_qp_allowed] keep the engine's values, with
    the option at 1 or 2 they become [qmax] and [qmin]. *)
Theorem config_enc_params_qp_bounds (mem : Allocator)
    (param : EbSvtVp9EncConfiguration) (avctx : AVCodecContext) :
  let param' := snd (fst (config_enc_params mem param avctx)) in
  let rc := rc_mode (priv_data avctx) in
  0 <= rc <= 2 ->
  (rc = 0 ->
     param' Eb.max_qp_allowed = param Eb.max_qp_allowed /\
     param' Eb.min_qp_allowed = param Eb.min_qp_allowed) /\
  (rc <> 0 ->
     fits (field_type Eb.max_qp_allowed) (qmax avctx) ->
     fits (field_type Eb.min_qp_allowed) (qmin avctx) ->
     param' Eb.max_qp_allowed = qmax avctx /\
     param' Eb.min_qp_allowed = qmin avctx).
Proof.
  intros param' rc Hrc; subst param'.
  assert (Hstored : cast (field_type Eb.rate_control_mode) rc = rc)
    by (apply cast_7_bits; lia).
  split; [ intros Hzero | intros Hnonzero Hmax Hmin ];
    config_branches avctx; fold rc; rewrite Hstored;
    destruct rc as [ | p | p ]; try lia; try contradiction;
    repeat split; solve [ reflexivity | apply cast_fits; assumption ].
Qed.

(** X6: [config_enc_params] sets [intra_refresh_type] to 2 when the codec
    flags carry [AV_CODEC_FLAG_CLOSED_GOP] and to 1 when they do not,
    whatever the type of the field. *)
Theorem config_enc_params_intra_refresh_type (mem : Allocator)
    (param : EbSvtVp9EncConfiguration) (avctx : AVCodecContext) :
  let param' := snd (fst (config_enc_params mem param avctx)) in
  param' Eb.intra_refresh_type
  = if Z.land (flags avctx) AV_CODEC_FLAG_CLOSED_GOP =? 0 then 1 else 2.
Proof.
  intros param'; subst param'.
  config_branches avctx;
    repeat match goal with
           | |- context [if ?b then _ else _] => destruct b
           end;
    cbn; rewrite ?cast_int by (cbn; lia); apply cast_7_bits; lia.
Qed.

End MoreConfigurationFacts.

(** ** eb_enc_init and eb_enc_close *)

Section InitFacts.
Context `{HostFramework} `{EngineHeader}.

Lemma free_buffer_frees (svt_enc : SvtContext) :
  in_buf (free_buffer svt_enc) = None /\ pool (free_buffer svt_enc) = None.
Proof.
  unfold free_buffer; destruct (in_buf svt_enc) eqn:E; cbn; auto.
Qed.

Lemma error_mapping_sign (e : EbErrorType) :
  error_mapping e <= 0 /\
  (error_mapping e = 0 <-> e = EB_ErrorNone \/ e = EB_NoErrorEmptyQueue).
Proof.
  pose proof (AVERROR_negative ENOMEM); pose proof (AVERROR_negative EINVAL).
  pose proof AVERROR_EXTERNAL_negative; pose proof AVERROR_UNKNOWN_negative.
  destruct e; cbn; (split; [ lia | ]); split;
    solve [ auto | lia | intros [E | E]; discriminate E ].
Qed.

Lemma config_enc_params_snd (mem : Allocator)
    (param : EbSvtVp9EncConfiguration) (avctx : AVCodecContext) :
  snd (config_enc_params mem param avctx)
  = snd (alloc_buffer mem (snd (fst (config_enc_params mem param avctx)))
           (priv_data avctx)).
Proof.
  unfold config_enc_params.
  match goal with
  | |- context [alloc_buffer ?m ?q ?c] =>
      destruct (alloc_buffer m q c) as [ret svt_enc] eqn:Ealloc
  end.
  cbn [fst snd]; rewrite Ealloc; reflexivity.
Qed.

Lemma alloc_buffer_context (mem : Allocator)
    (config : EbSvtVp9EncConfiguration) (svt_enc : SvtContext) :
  let svt_enc' := snd (alloc_buffer mem config svt_enc) in
  svt_handle svt_enc' = svt_handle svt_enc /\
  eos_flag svt_enc' = eos_flag svt_enc /\
  (enc_mode svt_enc' = enc_mode svt_enc /\
   rc_mode svt_enc' = rc_mode svt_enc /\
   tune svt_enc' = tune svt_enc /\
   qp svt_enc' = qp svt_enc /\
   forced_idr svt_enc' = forced_idr svt_enc /\
   level svt_enc' = level svt_enc /\
   base_layer_switch_mode svt_enc' = base_layer_switch_mode svt_enc) /\
  (alloc_ok mem = true ->
     in_buf_ready svt_enc' /\
     pool svt_enc' = Some {| pool_size := raw_size svt_enc' |}).
Proof.
  unfold alloc_buffer, free_buffer, alloc_ok.
  destruct (av_mallocz_in_buf mem), (av_mallocz_in_data mem),
    (av_buffer_pool_init mem); cbn;
    repeat split; solve [ reflexivity | discriminate ].
Qed.

Lemma config_enc_params_context (mem : Allocator)
    (param : EbSvtVp9EncConfiguration) (avctx : AVCodecContext) :
  let svt_enc := priv_data avctx in
  let svt_enc' := snd (config_enc_params mem param avctx) in
  svt_handle svt_enc' = svt_handle svt_enc /\
  eos_flag svt_enc' = eos_flag svt_enc /\
  (enc_mode svt_enc' = enc_mode svt_enc /\
   rc_mode svt_enc' = rc_mode svt_enc /\
   tune svt_enc' = tune svt_enc /\
   qp svt_enc' = qp svt_enc /\
   forced_idr svt_enc' = forced_idr svt_enc /\
   level svt_enc' = level svt_enc /\
   base_layer_switch_mode svt_enc' = base_layer_switch_mode svt_enc) /\
  (alloc_ok mem = true ->
     in_buf_ready svt_enc' /\
     pool svt_enc' = Some {| pool_size := raw_size svt_enc' |}).
Proof.
  cbv zeta; rewrite config_enc_params_snd; apply alloc_buffer_context.
Qed.

Lemma eb_enc_init_success (env : InitEnv) (avctx : AVCodecContext) :
  first_failure env = EB_ErrorNone ->
  let param := snd (fst (init_configured env avctx)) in
  let svt_enc := set_enc_params (snd (init_configured env avctx)) param in
  eb_enc_init env avctx
  = Some (0, svt_enc,
          [ eb_vp9_svt_init_handle;
            eb_vp9_svt_enc_set_parameter (init_handle_handle env) param;
            eb_vp9_init_encoder (init_handle_handle env) ]) /\
  alloc_ok (init_mem env) = true.
Proof.
  cbv beta zeta delta [first_failure eb_enc_init init_configured].
  pose proof (AVERROR_not_EB_ErrorNone ENOMEM) as Hnomem.
  match goal with
  | |- context [config_enc_params ?m ?p ?c] =>
      pose proof (config_enc_params_ret m p c) as Hret;
      pose proof (proj1 (config_enc_params_context m p c)) as Hhandle;
      destruct (config_enc_params m p c) as [[r param] svt_enc]
  end.
  cbn in Hret, Hhandle; subst r.
  cbv beta iota zeta delta [bind call ret].
  destruct (is_EB_ErrorNone (init_handle_ret env)) eqn:E1; cbn;
    [ | intros E; rewrite E in E1; discriminate E1 ].
  destruct (alloc_ok (init_mem env)); cbn;
    [ | intros E; rewrite E in Hnomem; discriminate Hnomem ].
  replace (is_EB_ErrorNone (EbErrorType_of_int 0)) with true
    by (symmetry; rewrite (proj2 (EbErrorType_of_int_zero 0) eq_refl);
        reflexivity).
  cbn.
  destruct (is_EB_ErrorNone (set_parameter_ret env)) eqn:E3; cbn;
    [ | intros E; rewrite E in E3; discriminate E3 ].
  intros E; rewrite E; cbn. rewrite Hhandle. split; reflexivity.
Qed.


Lemma free_buffer_svt_handle (svt_enc : SvtContext) :
  svt_handle (free_buffer svt_enc) = svt_handle svt_enc.
Proof. unfold free_buffer; destruct (in_buf svt_enc); reflexivity. Qed.

Lemma eb_enc_init_failure (env : InitEnv) (avctx : AVCodecContext) :
  first_failure env <> EB_ErrorNone ->
  exists svt_enc,
    eb_enc_init env avctx
    = Some (error_mapping (first_failure env), free_buffer svt_enc,
            failure_log env (snd (fst (init_configured env avctx)))) /\
    svt_handle svt_enc = init_handle_handle env.
Proof.
  cbv beta zeta delta
    [first_failure eb_enc_init init_configured failure_log].
  match goal with
  | |- context [config_enc_params ?m ?p ?c] =>
      pose proof (config_enc_params_ret m p c) as Hret;
      pose proof (proj1 (config_enc_params_context m p c)) as Hhandle;
      destruct (config_enc_params m p c) as [[r param] svt_enc]
  end.
  cbn in Hret, Hhandle; subst r.
  cbv beta iota zeta delta [bind call ret].
  destruct (is_EB_ErrorNone (init_handle_ret env)) eqn:E1; cbn.
  2: { intros _; eexists; split; reflexivity. }
  rewrite ?Hhandle.
  destruct (alloc_ok (init_mem env)); cbn.
  2: { rewrite AVERROR_not_EB_ErrorNone; cbn.
       intros _; eexists; split; [ reflexivity | exact Hhandle ]. }
  replace (is_EB_ErrorNone (EbErrorType_of_int 0)) with true
    by (symmetry; rewrite (proj2 (EbErrorType_of_int_zero 0) eq_refl);
        reflexivity).
  cbn.
  destruct (is_EB_ErrorNone (set_parameter_ret env)) eqn:E3; cbn.
  2: { intros _; eexists; split; [ reflexivity | exact Hhandle ]. }
  destruct (is_EB_ErrorNone (init_encoder_ret env)) eqn:E4; cbn.
  - apply is_EB_ErrorNone_true in E4; intros Hne; contradiction.
  - intros _; eexists; split; [ reflexivity | exact Hhandle ].
Qed.

Lemma eb_enc_init_success_facts (env : InitEnv) (avctx : AVCodecContext) :
  first_failure env = EB_ErrorNone ->
  exists svt_enc,
    eb_enc_init env avctx
    = Some (0, svt_enc,
            [ eb_vp9_svt_init_handle;
              eb_vp9_svt_enc_set_parameter (init_handle_handle env)
                (enc_params svt_enc);
              eb_vp9_init_encoder (init_handle_handle env) ]) /\
    svt_handle svt_enc = init_handle_handle env /\
    eos_flag svt_enc = EOS_NOT_REACHED /\
    in_buf_ready svt_enc /\
    pool svt_enc = Some {| pool_size := raw_size svt_enc |}.
Proof.
  intros Hok.
  destruct (eb_enc_init_success env avctx Hok) as [Hrun Halloc].
  eexists; split; [ exact Hrun | ].
  unfold init_configured.
  match goal with
  | |- context [config_enc_params ?m ?p ?c] =>
      destruct (config_enc_params_context m p c)
        as (Hhandle & Hflag & _ & Hbuf)
  end.
  destruct (Hbuf Halloc) as [Hready Hpool].
  repeat split; assumption.
Qed.

(** X7: when no step fails, [eb_enc_init] returns 0 after exactly three
    calls: it creates the handle, hands the engine the configuration it
    keeps in [enc_params], and starts the encoder.  It leaves the handle
    stored, the end-of-stream flag at [EOS_NOT_REACHED], the input buffer
    allocated and a pool of buffers of [raw_size] bytes. *)
Theorem eb_enc_init_success_state (env : InitEnv) (avctx : AVCodecContext) :
  first_failure env = EB_ErrorNone ->
  exists svt_enc,
    eb_enc_init env avctx
    = Some (0, svt_enc,
            [ eb_vp9_svt_init_handle;
              eb_vp9_svt_enc_set_parameter (init_handle_handle env)
                (enc_params svt_enc);
              eb_vp9_init_encoder (init_handle_handle env) ]) /\
    svt_handle svt_enc = init_handle_handle env /\
    eos_flag svt_enc = EOS_NOT_REACHED /\
    in_buf_ready svt_enc /\
    pool svt_enc = Some {| pool_size := raw_size svt_enc |}.
Proof. exact (eb_enc_init_success_facts env avctx). Qed.

(** X8: when a step of [eb_enc_init] fails, it returns the translation
    of that step's error with both [in_buf] and [pool] NULL.  If the
    handle had been created, the last call is [eb_vp9_deinit_handle] on
    it; if creating the handle failed, nothing else is called. *)
Theorem eb_enc_init_failure_cleans_up (env : InitEnv)
    (avctx : AVCodecContext) :
  first_failure env <> EB_ErrorNone ->
  exists svt_enc log,
    eb_enc_init env avctx
    = Some (error_mapping (first_failure env), svt_enc, log) /\
    in_buf svt_enc = None /\ pool svt_enc = None /\
    (if is_EB_ErrorNone (init_handle_ret env)
     then last log eb_vp9_svt_init_handle
          = eb_vp9_deinit_handle (init_handle_handle env)
     else log = [eb_vp9_svt_init_handle]).
Proof.
  intros Hfail.
  destruct (eb_enc_init_failure env avctx Hfail) as (svt_enc & Hrun & _).
  eexists; eexists; split; [ exact Hrun | ].
  destruct (free_buffer_frees svt_enc) as [Hbuf Hpool].
  split; [ exact Hbuf | split; [ exact Hpool | ] ].
  unfold failure_log.
  destruct (is_EB_ErrorNone (init_handle_ret env)); [ | reflexivity ].
  destruct (alloc_ok (init_mem env)); [ | reflexivity ].
  destruct (is_EB_ErrorNone (set_parameter_ret env)); reflexivity.
Qed.

(** X9: when the step of [eb_enc_init] that fails answers
    [EB_NoErrorEmptyQueue], [eb_enc_init] returns 0, as on success, though
    it has freed the buffers; a frame submitted to [eb_send_frame] on the
    context it leaves is read through the NULL [in_buf]. *)
Theorem eb_enc_init_empty_queue_reports_success (env : InitEnv)
    (avctx : AVCodecContext) :
  first_failure env = EB_NoErrorEmptyQueue ->
  exists svt_enc log,
    eb_enc_init env avctx = Some (0, svt_enc, log) /\
    in_buf svt_enc = None /\ pool svt_enc = None /\
    forall (env' : SendEnv) (frame : AVFrame.t),
      eb_send_frame env' (set_priv_data avctx svt_enc) (Some frame) = None.
Proof.
  intros Hfail.
  destruct (eb_enc_init_failure env avctx) as (svt_enc & Hrun & _);
    [ rewrite Hfail; discriminate | ].
  rewrite Hfail in Hrun.
  eexists; eexists; split; [ exact Hrun | ].
  destruct (free_buffer_frees svt_enc) as [Hbuf Hpool].
  split; [ exact Hbuf | split; [ exact Hpool | ] ].
  intros env' frame; unfold eb_send_frame.
  cbn [priv_data set_priv_data]; rewrite Hbuf; reflexivity.
Qed.

(** X10: [eb_enc_init] always returns, and never a positive value; it
    returns 0 exactly when no step fails or the failing step answers
    [EB_NoErrorEmptyQueue], and a negative error code on every other
    failure. *)
Theorem eb_enc_init_result_sign (env : InitEnv) (avctx : AVCodecContext) :
  exists r svt_enc,
    result (eb_enc_init env avctx) = Some (r, svt_enc) /\
    r <= 0 /\
    (r = 0 <->
     first_failure env = EB_ErrorNone \/
     first_failure env = EB_NoErrorEmptyQueue).
Proof.
  destruct (eb_enc_init_passes_through env avctx) as (svt_enc & Hrun & _).
  exists (error_mapping (first_failure env)), svt_enc.
  split; [ exact Hrun | apply error_mapping_sign ].
Qed.

(** X11: after an [eb_enc_init] that failed once the handle was created,
    [eb_enc_close] returns 0 with [in_buf] and [pool] still NULL (freeing
    twice is harmless), and deinitialises the encoder and the handle: the
    handle that the failing [eb_enc_init] had already passed to
    [eb_vp9_deinit_handle] is passed to it a second time. *)
Theorem eb_enc_close_after_failed_init (env : InitEnv)
    (avctx : AVCodecContext) :
  first_failure env <> EB_ErrorNone ->
  init_handle_ret env = EB_ErrorNone ->
  exists r svt_enc log svt_enc',
    eb_enc_init env avctx = Some (r, svt_enc, log) /\
    In (eb_vp9_deinit_handle (init_handle_handle env)) log /\
    eb_enc_close (set_priv_data avctx svt_enc)
    = Some (0, svt_enc',
            [ eb_vp9_deinit_encoder (init_handle_handle env);
              eb_vp9_deinit_handle (init_handle_handle env) ]) /\
    in_buf svt_enc' = None /\ pool svt_enc' = None.
Proof.
  intros Hfail Hhandle.
  destruct (eb_enc_init_failure env avctx Hfail) as (svt_enc & Hrun & Hh).
  eexists; eexists; eexists; eexists; split; [ exact Hrun | ].
  split.
  { unfold failure_log; rewrite Hhandle; cbn.
    right; apply in_or_app; right; left; reflexivity. }
  unfold eb_enc_close; cbn [priv_data set_priv_data].
  rewrite free_buffer_svt_handle, Hh.
  split; [ reflexivity | apply free_buffer_frees ].
Qed.

End InitFacts.

(** ** Flag bits *)

Lemma has_bits_lor (flags m : Z) : has_bits (Z.lor flags m) m.
Proof.
  unfold has_bits; apply Z.bits_inj'; intros i Hi.
  rewrite Z.land_spec, Z.lor_spec.
  destruct (Z.testbit flags i), (Z.testbit m i); reflexivity.
Qed.

Lemma has_bits_lor_other (flags k m : Z) :
  has_bits flags m -> has_bits (Z.lor flags k) m.
Proof.
  unfold has_bits; intros Hm; apply Z.bits_inj'; intros i Hi.
  apply (f_equal (fun z => Z.testbit z i)) in Hm.
  rewrite Z.land_spec in Hm; rewrite Z.land_spec, Z.lor_spec.
  destruct (Z.testbit flags i), (Z.testbit k i), (Z.testbit m i);
    solve [ reflexivity | discriminate Hm ].
Qed.

Lemma cast_int_low_bits (x i : Z) :
  0 <= i < 32 -> Z.testbit (cast int x) i = Z.testbit x i.
Proof.
  intros Hi.
  rewrite <- (Z.mod_pow2_bits_low (cast int x) 32 i),
    <- (Z.mod_pow2_bits_low x 32 i) by lia.
  f_equal; unfold cast; cbn -[Z.modulo Z.add Z.sub].
  rewrite Zminus_mod_idemp_l; f_equal; lia.
Qed.

Lemma has_bits_cast_int (flags m : Z) :
  0 <= m < 2 ^ 31 -> has_bits flags m -> has_bits (cast int flags) m.
Proof.
  unfold has_bits; intros Hrange Hm; apply Z.bits_inj'; intros i Hi.
  apply (f_equal (fun z => Z.testbit z i)) in Hm.
  rewrite Z.land_spec in Hm; rewrite Z.land_spec.
  destruct (Z_lt_ge_dec i 32) as [Hlow | Hhigh].
  - rewrite cast_int_low_bits by lia; exact Hm.
  - assert (Hoff : Z.testbit m i = false).
    { destruct (Z.eq_dec m 0) as [-> | Hnz]; [ apply Z.bits_0 | ].
      apply Z.bits_above_log2; [ lia | ].
      assert (Z.log2 m < 31) by (apply Z.log2_lt_pow2; lia).
      lia. }
    rewrite Hoff; apply andb_false_r.
Qed.

(** ** eb_receive_packet *)

Lemma memcpy_spec (dst bytes : list Z) (n : Z) :
  0 <= n <= Z.of_nat (length bytes) ->
  n <= Z.of_nat (length dst) ->
  exists copied,
    memcpy dst (stream_data bytes) n = Some copied /\
    firstn (Z.to_nat n) copied = firstn (Z.to_nat n) bytes /\
    skipn (Z.to_nat n) copied = skipn (Z.to_nat n) dst /\
    length copied = length dst.
Proof.
  intros Hsrc Hdst; unfold memcpy.
  replace (n <=? Z.of_nat (length bytes)) with true
    by (symmetry; apply Z.leb_le; lia).
  replace (n <=? Z.of_nat (length dst)) with true
    by (symmetry; apply Z.leb_le; lia).
  eexists; split; [ reflexivity | ].
  assert (Hlen : length (firstn (Z.to_nat n) bytes) = Z.to_nat n)
    by (apply firstn_length_le; lia).
  repeat split.
  - rewrite firstn_app, Hlen, Nat.sub_diag, firstn_O, app_nil_r.
    apply firstn_firstn_min || (rewrite firstn_firstn; f_equal; lia).
  - rewrite skipn_app, Hlen, Nat.sub_diag, skipn_O.
    rewrite skipn_all2 by lia; reflexivity.
  - rewrite length_app, Hlen, length_skipn; lia.
Qed.

Section ReceiveFacts.
Context `{HostFramework} `{EngineHeader}.

(** Walks [eb_receive_packet] down to the path taken. *)
Ltac receive_paths env :=
  unfold eb_receive_packet;
  cbv beta iota zeta delta [bind call ret lift undefined result calls];
  destruct (EOS_STATUS_eqb _ _) eqn:Htrigger; cbn;
  [ | destruct (is_EB_NoErrorEmptyQueue (get_packet_ret env)) eqn:Hempty;
      cbn;
      [ | destruct (pool_get_ref env) as [ref | ] eqn:Href; cbn;
          [ destruct (memcpy _ _ _) as [copied | ] eqn:Hcopy; cbn | ] ] ].

(** X12: when the engine has no packet ([EB_NoErrorEmptyQueue]),
    [eb_receive_packet] returns [AVERROR(EAGAIN)], a negative value; the
    context and the packet are as before, and the only call made is the
    query of the engine: no buffer is taken from the pool and nothing is
    released. *)
Theorem eb_receive_packet_empty_queue (env : ReceiveEnv)
    (avctx : AVCodecContext) (pkt : AVPacket.t) :
  let svt_enc := priv_data avctx in
  eos_flag svt_enc <> EOS_TOTRIGGER ->
  get_packet_ret env = EB_NoErrorEmptyQueue ->
  eb_receive_packet env avctx pkt
  = Some (AVERROR EAGAIN, svt_enc, pkt,
          [ eb_vp9_svt_get_packet (svt_handle svt_enc)
              (EOS_STATUS_value (eos_flag svt_enc)) ]) /\
  AVERROR EAGAIN < 0.
Proof.
  intros svt_enc Hflag Hret; subst svt_enc.
  split; [ | apply AVERROR_negative ].
  unfold eb_receive_packet.
  rewrite (EOS_STATUS_eqb_neq EOS_TOTRIGGER)
    by (intros E; apply Hflag; symmetry; exact E).
  cbv beta iota zeta delta [bind call ret]; rewrite Hret; reflexivity.
Qed.

(** X13: whenever [eb_receive_packet] returns, the context is as before,
    except that the end-of-stream flag is [EOS_TOTRIGGER] when a packet
    was delivered (result 0) whose header flags are equal to
    [EB_BUFFERFLAG_EOS]; a delivered packet whose flags carry any other
    value, and every error return, leave the flag alone. *)
Theorem eb_receive_packet_eos_exact (env : ReceiveEnv)
    (avctx : AVCodecContext) (pkt pkt' : AVPacket.t) (r : Z)
    (svt_enc' : SvtContext) :
  result (eb_receive_packet env avctx pkt) = Some (r, svt_enc', pkt') ->
  svt_enc'
  = if (r =? 0)
       && (EB_BUFFERFLAG_EOS =? hdr (get_packet_header env) Eb.flags)
    then set_eos_flag (priv_data avctx) EOS_TOTRIGGER
    else priv_data avctx.
Proof.
  pose proof AVERROR_EOF_negative; pose proof (AVERROR_negative EAGAIN).
  pose proof (AVERROR_negative ENOMEM).
  receive_paths env; try discriminate;
    intros E; injection E as <- <- _;
    try (replace (_ =? 0) with false by (symmetry; apply Z.eqb_neq; lia);
         reflexivity).
  destruct (EB_BUFFERFLAG_EOS =? _); reflexivity.
Qed.

(** X14: whenever [eb_receive_packet] returns, it has released the
    engine's output buffer exactly once if the engine handed one out, and
    not at all otherwise (end of stream already signalled, or empty
    queue); it queries the engine once, except after [EOS_TOTRIGGER],
    where it does not query it. *)
Theorem eb_receive_packet_releases_once (env : ReceiveEnv)
    (avctx : AVCodecContext) (pkt : AVPacket.t)
    (r : Z * SvtContext * AVPacket.t) :
  result (eb_receive_packet env avctx pkt) = Some r ->
  let log := calls (eb_receive_packet env avctx pkt) in
  let obtained :=
    negb (EOS_STATUS_eqb EOS_TOTRIGGER (eos_flag (priv_data avctx)))
    && negb (is_EB_NoErrorEmptyQueue (get_packet_ret env)) in
  filter is_release log
  = (if obtained
     then [eb_vp9_svt_release_out_buffer (get_packet_header env)]
     else []) /\
  length (filter is_get_packet log)
  = (if EOS_STATUS_eqb EOS_TOTRIGGER (eos_flag (priv_data avctx))
     then 0 else 1)%nat.
Proof.
  receive_paths env; try discriminate; intros _; split; reflexivity.
Qed.

(** X15: when the engine hands out [n_filled_len] bytes that fit into the
    pooled buffer, [eb_receive_packet] returns 0 after querying the
    engine, taking a buffer from the pool and releasing the engine's
    buffer, in this order.  The packet's data begin with the engine's
    bytes and fill the pooled buffer, which the packet owns; its size and
    time stamps are those of the engine's header. *)
Theorem eb_receive_packet_delivers (env : ReceiveEnv)
    (avctx : AVCodecContext) (pkt : AVPacket.t) (ref : AVBufferRef)
    (bytes : list Z) :
  let svt_enc := priv_data avctx in
  let header := get_packet_header env in
  let n := cast size_t (hdr header Eb.n_filled_len) in
  eos_flag svt_enc <> EOS_TOTRIGGER ->
  get_packet_ret env <> EB_NoErrorEmptyQueue ->
  pool_get_ref env = Some ref ->
  p_buffer header = stream_data bytes ->
  n <= Z.of_nat (length bytes) ->
  n <= Z.of_nat (length (ref_data ref)) ->
  exists svt_enc' pkt',
    eb_receive_packet env avctx pkt
    = Some (0, svt_enc', pkt',
            [ eb_vp9_svt_get_packet (svt_handle svt_enc)
                (EOS_STATUS_value (eos_flag svt_enc));
              av_buffer_pool_get (pool svt_enc);
              eb_vp9_svt_release_out_buffer header ]) /\
    firstn (Z.to_nat n) (AVPacket.data pkt') = firstn (Z.to_nat n) bytes /\
    length (AVPacket.data pkt') = length (ref_data ref) /\
    AVPacket.buf pkt' = Some {| ref_data := AVPacket.data pkt' |} /\
    AVPacket.size pkt' = cast int (hdr header Eb.n_filled_len) /\
    AVPacket.pts pkt' = cast int64_t (hdr header Eb.pts) /\
    AVPacket.dts pkt' = cast int64_t (hdr header Eb.dts).
Proof.
  intros svt_enc header n Hflag Hret Href Hbuf Hsrc Hdst.
  subst svt_enc header.
  assert (Hn : 0 <= n) by (apply Z.mod_pos_bound; reflexivity).
  destruct (memcpy_spec (ref_data ref) bytes n (conj Hn Hsrc) Hdst)
    as (copied & Hcopy & Hfirst & _ & Hlen).
  unfold eb_receive_packet.
  rewrite (EOS_STATUS_eqb_neq EOS_TOTRIGGER)
    by (intros E; apply Hflag; symmetry; exact E).
  cbv beta iota zeta delta [bind call ret lift].
  rewrite (is_EB_NoErrorEmptyQueue_neq _ Hret), Href, Hbuf.
  fold n; rewrite Hcopy.
  destruct (pic_type (get_packet_header env));
    destruct (Z.land _ _ =? 0); destruct (EB_BUFFERFLAG_EOS =? _); cbn;
    eexists; eexists; (split; [ reflexivity | ]); cbn;
    repeat split; assumption.
Qed.

End ReceiveFacts.

Section PacketFlagFacts.
Context `{HostFramework} `{EngineHeader}.

Lemma pkt_or_flag_sets (pkt : AVPacket.t) (m : Z) :
  0 <= m < 2 ^ 31 -> has_bits (AVPacket.flags (pkt_or_flag pkt m)) m.
Proof. intros Hm; apply has_bits_cast_int, has_bits_lor; exact Hm. Qed.

Lemma pkt_or_flag_keeps (pkt : AVPacket.t) (k m : Z) :
  0 <= m < 2 ^ 31 ->
  has_bits (AVPacket.flags pkt) m ->
  has_bits (AVPacket.flags (pkt_or_flag pkt k)) m.
Proof.
  intros Hm Hset; apply has_bits_cast_int, has_bits_lor_other; assumption.
Qed.

(** X16: on a delivered packet, [eb_receive_packet] only adds flag bits:
    every bit set in the packet's flags before is set after.  It sets
    [AV_PKT_FLAG_KEY] for an IDR or I picture, [AV_PKT_FLAG_DISPOSABLE] for
    a non-reference picture, and [AV_PKT_FLAG_SVT_VP9_EXT_ON] or
    [AV_PKT_FLAG_SVT_VP9_EXT_OFF] according to whether the header flags
    carry [EB_BUFFERFLAG_SHOW_EXT].  (The masks are non-negative [int]
    values.) *)
Theorem eb_receive_packet_flags (env : ReceiveEnv) (avctx : AVCodecContext)
    (pkt pkt' : AVPacket.t) (svt_enc' : SvtContext) :
  result (eb_receive_packet env avctx pkt) = Some (0, svt_enc', pkt') ->
  let header := get_packet_header env in
  let flags' := AVPacket.flags pkt' in
  (forall m, 0 <= m < 2 ^ 31 ->
     has_bits (AVPacket.flags pkt) m -> has_bits flags' m) /\
  (0 <= AV_PKT_FLAG_KEY < 2 ^ 31 ->
   pic_type header = EB_IDR_PICTURE \/ pic_type header = EB_I_PICTURE ->
   has_bits flags' AV_PKT_FLAG_KEY) /\
  (0 <= AV_PKT_FLAG_DISPOSABLE < 2 ^ 31 ->
   pic_type header = EB_NON_REF_PICTURE ->
   has_bits flags' AV_PKT_FLAG_DISPOSABLE) /\
  (0 <= AV_PKT_FLAG_SVT_VP9_EXT_ON < 2 ^ 31 ->
   0 <= AV_PKT_FLAG_SVT_VP9_EXT_OFF < 2 ^ 31 ->
   has_bits flags'
     (if Z.land (hdr header Eb.flags) EB_BUFFERFLAG_SHOW_EXT =? 0
      then AV_PKT_FLAG_SVT_VP9_EXT_OFF
      else AV_PKT_FLAG_SVT_VP9_EXT_ON)).
Proof.
  pose proof AVERROR_EOF_negative; pose proof (AVERROR_negative EAGAIN).
  pose proof (AVERROR_negative ENOMEM).
  unfold eb_receive_packet;
  cbv beta iota zeta delta [bind call ret lift undefined result].
  destruct (EOS_STATUS_eqb _ _); cbn;
    [ intros E; injection E as E _ _; lia | ].
  destruct (is_EB_NoErrorEmptyQueue _); cbn;
    [ intros E; injection E as E _ _; lia | ].
  destruct (pool_get_ref env) as [ref | ]; cbn;
    [ | intros E; injection E as E _ _; lia ].
  destruct (memcpy _ _ _) as [copied | ]; cbn; [ | discriminate ].
  intros E; injection E as _ <-; clear svt_enc'.
  cbv zeta.
  repeat split.
  - intros m Hm Hset.
    destruct (pic_type (get_packet_header env));
      destruct (Z.land _ _ =? 0);
      repeat apply pkt_or_flag_keeps; solve [ assumption ].
  - intros Hkey [Etype | Etype]; rewrite Etype;
      destruct (Z.land _ _ =? 0);
      apply pkt_or_flag_keeps; try assumption;
      apply pkt_or_flag_sets; assumption.
  - intros Hdisp Etype; rewrite Etype;
      destruct (Z.land _ _ =? 0);
      apply pkt_or_flag_keeps; try assumption;
      apply pkt_or_flag_sets; assumption.
  - intros Hon Hoff.
    destruct (Z.land _ _ =? 0); apply pkt_or_flag_sets; assumption.
Qed.

End PacketFlagFacts.

(** ** eb_send_frame *)

Section SendFacts.
Context `{HostFramework} `{EngineHeader}.

Lemma is16bit_value (config : EbSvtVp9EncConfiguration) :
  cast uint8_t (of_bool (8 <? config Eb.encoder_bit_depth))
  = if 8 <? config Eb.encoder_bit_depth then 1 else 0.
Proof. destruct (8 <? config Eb.encoder_bit_depth); reflexivity. Qed.

(** X17: for a frame, [eb_send_frame] hands the engine the input header
    of the context, which it keeps, with a picture descriptor that points
    to the three planes of the frame and gives the strides in samples:
    the frame's line sizes up to 8 bits per sample, half of them above,
    each converted to the type of its field.  The header's flags are 0,
    its private pointer NULL and its time stamp the frame's. *)
Theorem eb_send_frame_descriptor (env : SendEnv) (avctx : AVCodecContext)
    (frame : AVFrame.t) (header : EbBufferHeaderType)
    (in_data : EbSvtEncInput) :
  let svt_enc := priv_data avctx in
  let plane (i : nat) := nth i (AVFrame.data frame) NULL in
  let stride (i : nat) :=
    nth i (AVFrame.linesize frame) 0
    / (if 8 <? enc_params svt_enc Eb.encoder_bit_depth then 2 else 1) in
  in_buf svt_enc = Some header ->
  p_buffer header = input_data in_data ->
  exists header' in_data',
    eb_send_frame env avctx (Some frame)
    = Some (0, set_in_buf svt_enc (Some header'),
            [eb_vp9_svt_enc_send_picture (svt_handle svt_enc) header']) /\
    p_buffer header' = input_data in_data' /\
    (luma in_data' = plane 0%nat /\ cb in_data' = plane 1%nat /\
     cr in_data' = plane 2%nat) /\
    (strides in_data' Eb.y_stride
       = cast (field_type Eb.y_stride) (stride 0%nat) /\
     strides in_data' Eb.cb_stride
       = cast (field_type Eb.cb_stride) (stride 1%nat) /\
     strides in_data' Eb.cr_stride
       = cast (field_type Eb.cr_stride) (stride 2%nat)) /\
    hdr header' Eb.flags = 0 /\
    hdr header' Eb.pts = cast (field_type Eb.pts) (AVFrame.pts frame) /\
    p_app_private header' = NULL.
Proof.
  intros svt_enc plane stride Hbuf Hdata; subst svt_enc plane stride.
  unfold eb_send_frame, read_in_data.
  cbv beta iota zeta delta [bind call ret lift].
  rewrite Hbuf, Hdata, is16bit_value.
  destruct (8 <? enc_params (priv_data avctx) Eb.encoder_bit_depth);
    eexists; eexists; (split; [ reflexivity | ]);
    cbn -[Z.shiftr Z.div]; rewrite (cast_7_bits _ 0) by lia;
    rewrite ?Z.shiftr_0_r, ?Z.div_1_r;
    rewrite ?(Z.shiftr_div_pow2 _ 1) by lia;
    repeat split; reflexivity.
Qed.

(** X18: [eb_send_frame] adds the size of one picture to [n_filled_len]
    of the input header with every frame and never resets it: after the
    call the field holds its value before the call plus the picture
    size. *)
Theorem eb_send_frame_n_filled_len (env : SendEnv) (avctx : AVCodecContext)
    (frame : AVFrame.t) (header : EbBufferHeaderType)
    (in_data : EbSvtEncInput) :
  let svt_enc := priv_data avctx in
  let config := enc_params svt_enc in
  let filled := hdr header Eb.n_filled_len in
  in_buf svt_enc = Some header ->
  p_buffer header = input_data in_data ->
  0 < config Eb.source_width ->
  0 < config Eb.source_height ->
  3 * (config Eb.source_width * config Eb.source_height) < 2 ^ 31 ->
  0 <= filled ->
  fits (field_type Eb.n_filled_len) (filled + picture_bytes config) ->
  exists header' svt_enc',
    result (eb_send_frame env avctx (Some frame)) = Some (0, svt_enc') /\
    in_buf svt_enc' = Some header' /\
    hdr header' Eb.n_filled_len = filled + picture_bytes config.
Proof.
  intros svt_enc config filled Hbuf Hdata Hw Hh Hsmall Hfilled Hfits.
  subst svt_enc.
  unfold eb_send_frame, read_in_data.
  cbv beta iota zeta delta [bind call ret lift result option_map].
  rewrite Hbuf, Hdata, is16bit_value.
  eexists; eexists; split; [ reflexivity | split; [ reflexivity | ] ].
  cbn -[cast Z.shiftl Z.div Z.mul Z.add]; fold config; fold filled.
  unfold picture_bytes in *.
  set (w := config Eb.source_width) in *.
  set (h := config Eb.source_height) in *.
  assert (Hwh : 0 < w * h) by nia.
  assert (Hwmax : w <= w * h /\ h <= w * h) by nia.
  rewrite (cast_uint64_t w), (cast_uint64_t h) by lia.
  set (samples := w * h) in *.
  rewrite (cast_uint64_t samples) by lia.
  set (bytes := if 8 <? config Eb.encoder_bit_depth
                then 2 * samples * 3 / 2 else samples * 3 / 2) in *.
  assert (Hbytes : 0 <= bytes < 2 ^ 31).
  { subst bytes; destruct (8 <? config Eb.encoder_bit_depth);
      (split; [ apply Z.div_pos; lia | apply Z.div_lt_upper_bound; lia ]). }
  assert (Hmax : filled + bytes < 2 ^ 64).
  { destruct (field_type Eb.n_filled_len);
      unfold fits, min_val, max_val in Hfits; cbn in Hfits; lia. }
  rewrite (cast_uint64_t filled) by lia.
  assert (Hincrement :
    cast uint64_t
      (cast uint64_t
         (Z.shiftl samples
            (if 8 <? config Eb.encoder_bit_depth then 1 else 0)) * 3) / 2
    = bytes).
  { subst bytes; destruct (8 <? config Eb.encoder_bit_depth).
    - rewrite Z.shiftl_mul_pow2 by lia; change (2 ^ 1) with 2.
      rewrite (cast_uint64_t (samples * 2)) by lia.
      rewrite (cast_uint64_t (samples * 2 * 3)) by lia.
      f_equal; lia.
    - rewrite Z.shiftl_0_r, (cast_uint64_t samples) by lia.
      rewrite (cast_uint64_t (samples * 3)) by lia.
      reflexivity. }
  rewrite Hincrement, (cast_uint64_t (filled + bytes)) by lia.
  apply cast_fits; exact Hfits.
Qed.

(** X19: for a null frame, [eb_send_frame] works on any context, also one
    without input buffer: it returns 0, sets the flag to [EOS_REACHED] and
    changes nothing else.  The one header it hands the engine has
    [EB_BUFFERFLAG_EOS] (as the flags field holds it) as flags, no buffer
    and zero lengths; its time stamp, size field and picture type are
    never assigned. *)
Theorem eb_send_frame_null_frame (env : SendEnv) (avctx : AVCodecContext) :
  let svt_enc := priv_data avctx in
  let declared := headerPtrLast_declared env in
  exists last,
    eb_send_frame env avctx None
    = Some (0, set_eos_flag svt_enc EOS_REACHED,
            [eb_vp9_svt_enc_send_picture (svt_handle svt_enc) last]) /\
    hdr last Eb.flags = cast (field_type Eb.flags) EB_BUFFERFLAG_EOS /\
    (hdr last Eb.n_alloc_len = 0 /\ hdr last Eb.n_filled_len = 0 /\
     hdr last Eb.n_tick_count = 0) /\
    (p_buffer last = no_buffer /\ p_app_private last = NULL) /\
    (hdr last Eb.pts = hdr declared Eb.pts /\
     hdr last Eb.size = hdr declared Eb.size /\
     pic_type last = pic_type declared).
Proof.
  intros svt_enc declared; subst svt_enc declared.
  unfold eb_send_frame.
  cbv beta iota zeta delta [bind call ret].
  eexists; split; [ reflexivity | ].
  cbn; repeat split; apply cast_7_bits; lia.
Qed.

(** X20: once the null frame is submitted, the next [eb_receive_packet]
    queries the engine with [pic_send_done] equal to 1 (the value of
    [EOS_REACHED]), unless the call is undefined. *)
Theorem eb_receive_packet_after_null_frame (senv : SendEnv)
    (renv : ReceiveEnv) (avctx : AVCodecContext) (pkt : AVPacket.t) :
  exists svt_enc,
    result (eb_send_frame senv avctx None) = Some (0, svt_enc) /\
    (eb_receive_packet renv (set_priv_data avctx svt_enc) pkt = None \/
     exists rest,
       calls (eb_receive_packet renv (set_priv_data avctx svt_enc) pkt)
       = eb_vp9_svt_get_packet (svt_handle (priv_data avctx)) 1 :: rest).
Proof.
  eexists; split; [ reflexivity | ].
  unfold eb_receive_packet.
  cbv beta iota zeta delta [bind call ret lift undefined calls]; cbn.
  destruct (is_EB_NoErrorEmptyQueue _); cbn;
    [ right; eexists; reflexivity | ].
  destruct (pool_get_ref renv); cbn; [ | right; eexists; reflexivity ].
  destruct (memcpy _ _ _); cbn; [ right; eexists; reflexivity | left ].
  reflexivity.
Qed.

End SendFacts.

(** ** Whole runs of the callbacks *)

Section RunFacts.
Context `{HostFramework} `{EngineHeader}.

Lemma same_setup_refl (a : AVCodecContext) : same_setup a a.
Proof. destruct a; unfold same_setup; cbn; repeat split. Qed.

Lemma same_setup_trans (a b c : AVCodecContext) :
  same_setup a b -> same_setup b c -> same_setup a c.
Proof.
  unfold same_setup.
  intros (Hab & ? & ? & ? & ? & ? & ? & ? & ? & ? & ? & ?)
         (Hbc & ? & ? & ? & ? & ? & ? & ? & ? & ? & ? & ?).
  repeat split; try congruence.
  rewrite <- Hbc, <- Hab; destruct a; reflexivity.
Qed.

Lemma step_same_setup (avctx avctx' : AVCodecContext) (c : api_call) :
  step avctx c = Some avctx' -> same_setup avctx avctx'.
Proof.
  destruct c as [env frame | env pkt]; unfold step.
  - unfold eb_send_frame.
    cbv beta iota zeta delta [bind call ret lift undefined result].
    destruct frame as [frame | ]; cbn.
    + destruct (in_buf (priv_data avctx)) as [header | ]; cbn;
        [ | discriminate ].
      destruct (read_in_data _ _ _) as [header' | ]; cbn;
        [ | discriminate ].
      intros E; injection E as <-; destruct avctx;
        unfold same_setup; cbn; repeat split.
    + intros E; injection E as <-; destruct avctx;
        unfold same_setup; cbn; repeat split.
  - unfold eb_receive_packet.
    cbv beta iota zeta delta [bind call ret lift undefined result].
    repeat match goal with
           | |- context [match ?b with _ => _ end] =>
               match type of b with
               | bool => destruct b
               | option _ => destruct b
               end; cbn; try discriminate
           end;
      intros E; injection E as <-; destruct avctx;
      unfold same_setup; cbn; repeat split.
Qed.

Lemma same_setup_along_run (cs : list api_call) :
  forall avctx avctx' : AVCodecContext,
    run cs avctx = Some avctx' -> same_setup avctx avctx'.
Proof.
  induction cs as [ | c cs IH]; intros avctx avctx'; cbn.
  - intros E; injection E as <-; apply same_setup_refl.
  - destruct (step avctx c) as [avctx1 | ] eqn:Hstep; [ | discriminate ].
    intros Hrun.
    apply (same_setup_trans _ avctx1);
      [ apply (step_same_setup _ _ _ Hstep) | apply (IH _ _ Hrun) ].
Qed.

(** X21: along any sequence of calls of [eb_send_frame] and
    [eb_receive_packet], the codec context, the engine configuration, the
    handle, [raw_size], the pool and the user options stay as they were:
    the callbacks write the input buffer and the end-of-stream flag
    only. *)
Theorem run_same_setup (cs : list api_call) (avctx avctx' : AVCodecContext) :
  run cs avctx = Some avctx' -> same_setup avctx avctx'.
Proof. exact (same_setup_along_run cs avctx avctx'). Qed.

Lemma run_in_buf_ready (cs : list api_call) :
  forall avctx avctx' : AVCodecContext,
    run cs avctx = Some avctx' ->
    in_buf_ready (priv_data avctx) -> in_buf_ready (priv_data avctx').
Proof.
  induction cs as [ | c cs IH]; intros avctx avctx'; cbn.
  - intros E; injection E as <-; auto.
  - destruct (step avctx c) as [avctx1 | ] eqn:Hstep; [ | discriminate ].
    intros Hrun Hready.
    apply (IH _ _ Hrun), (step_in_buf_ready _ _ _ Hstep), Hready.
Qed.

(** X22: after an [eb_enc_init] in which no step failed, and then any
    sequence of calls of [eb_send_frame] and [eb_receive_packet],
    [eb_send_frame] is defined for every frame, null or not: it returns 0
    after one submission to the engine, on the handle that [eb_enc_init]
    created. *)
Theorem eb_send_frame_defined_after_init (init : InitEnv)
    (avctx0 : AVCodecContext) :
  first_failure init = EB_ErrorNone ->
  exists svt_enc,
    result (eb_enc_init init avctx0) = Some (0, svt_enc) /\
    forall (cs : list api_call) (avctx : AVCodecContext) (env : SendEnv)
           (frame : option AVFrame.t),
      run cs (set_priv_data avctx0 svt_enc) = Some avctx ->
      exists svt_enc' header,
        eb_send_frame env avctx frame
        = Some (0, svt_enc',
                [ eb_vp9_svt_enc_send_picture (init_handle_handle init)
                    header ]).
Proof.
  intros Hok.
  destruct (eb_enc_init_success_facts init avctx0 Hok)
    as (svt_enc & Hrun0 & Hhandle & _ & Hready & _).
  exists svt_enc; split; [ unfold result; rewrite Hrun0; reflexivity | ].
  intros cs avctx env frame Hrun.
  pose proof (run_in_buf_ready cs _ _ Hrun Hready) as Hready'.
  destruct (same_setup_along_run cs _ _ Hrun) as (_ & _ & Hsame & _).
  cbn in Hsame; rewrite Hhandle in Hsame.
  unfold eb_send_frame.
  destruct frame as [frame | ].
  - destruct (in_buf_ready_inv _ Hready')
      as (header & in_data & Hbuf & Hdata).
    destruct (read_in_data_ready (enc_params (priv_data avctx)) frame
                header in_data Hdata) as (header' & _ & Hread & _).
    rewrite Hbuf; cbn; rewrite Hread; cbn; rewrite <- Hsame.
    eexists; eexists; reflexivity.
  - cbn; rewrite <- Hsame; eexists; eexists; reflexivity.
Qed.

(** X23: once the flag is [EOS_TOTRIGGER], any number of calls of
    [eb_receive_packet] leaves the context as it is and the flag at
    [EOS_TOTRIGGER], and makes no call to the engine or to the pool. *)
Theorem run_after_trigger (cs : list api_call) (avctx : AVCodecContext) :
  eos_flag (priv_data avctx) = EOS_TOTRIGGER ->
  forallb is_receive_packet cs = true ->
  run cs avctx = Some avctx /\
  run_calls cs avctx = [] /\
  eos_trace cs avctx = repeat EOS_TOTRIGGER (length cs).
Proof.
  intros Hflag; induction cs as [ | c cs IH]; cbn; [ auto | ].
  destruct c as [env frame | env pkt]; cbn; [ discriminate | ].
  intros Hall.
  unfold eb_receive_packet; rewrite Hflag; cbn.
  replace (set_priv_data avctx (priv_data avctx)) with avctx
    by (destruct avctx; reflexivity).
  destruct (IH Hall) as (Hrun & Hcalls & Htrace).
  rewrite Hflag, Hrun, Hcalls, Htrace; auto.
Qed.

Lemma step_calls_balance (avctx : AVCodecContext) (c : api_call) :
  let log := step_calls avctx c in
  (length (filter is_release log) <= length (filter is_get_packet log))%nat /\
  length (filter is_send_picture log)
  = match step avctx c with
    | Some _ => if is_receive_packet c then 0%nat else 1%nat
    | None => 0%nat
    end.
Proof.
  destruct c as [env frame | env pkt]; unfold step_calls, step; cbn.
  - unfold eb_send_frame.
    cbv beta iota zeta delta [bind call ret lift undefined result calls].
    destruct frame as [frame | ]; cbn; [ | auto ].
    destruct (in_buf (priv_data avctx)) as [header | ]; cbn; [ | auto ].
    destruct (read_in_data _ _ _) as [header' | ]; cbn; auto.
  - unfold eb_receive_packet.
    cbv beta iota zeta delta [bind call ret lift undefined result calls].
    repeat match goal with
           | |- context [match ?b with _ => _ end] =>
               match type of b with
               | bool => destruct b
               | option _ => destruct b
               end; cbn
           end; auto.
Qed.

(** X24: along any sequence of calls, the adapter never releases more
    engine buffers than it has asked the engine for, and it submits
    exactly one header to the engine per call of [eb_send_frame]. *)
Theorem run_calls_balance (cs : list api_call) :
  forall avctx avctx' : AVCodecContext,
    run cs avctx = Some avctx' ->
    let log := run_calls cs avctx in
    (length (filter is_release log)
     <= length (filter is_get_packet log))%nat /\
    length (filter is_send_picture log)
    = length (filter (fun c => negb (is_receive_packet c)) cs).
Proof.
  induction cs as [ | c cs IH]; intros avctx avctx'; cbn; [ auto | ].
  pose proof (step_calls_balance avctx c) as [Hrel Hsend].
  destruct (step avctx c) as [avctx1 | ] eqn:Hstep; [ | discriminate ].
  intros Hrun; destruct (IH _ _ Hrun) as [IHrel IHsend].
  rewrite !filter_app, !length_app, Hsend, IHsend.
  split; [ lia | ].
  destruct (is_receive_packet c); reflexivity.
Qed.

End RunFacts.

(** ** More concrete runs *)

Section MoreConcreteRuns.
Import Demo Cases.
Local Existing Instance host.
Local Existing Instance engine.

Lemma alloc_buffer_raw_size_witness :
  raw_size (snd (alloc_buffer (init_mem init_ok) configured svt_enc0))
  = 64 * 48 * 3 / 2.
Proof.
  apply (alloc_buffer_raw_size (init_mem init_ok) configured svt_enc0);
    reflexivity.
Defined.

Lemma config_enc_params_picture_witness :
  configured Eb.source_width = 64 /\
  configured Eb.source_height = 48 /\
  configured Eb.target_bit_rate = 7000000.
Proof.
  apply (config_enc_params_picture (init_mem init_ok) defaults avctx0);
    unfold fits; cbn; lia.
Defined.

Lemma config_enc_params_intra_period_witness :
  configured Eb.intra_period = 12 - 1.
Proof.
  apply (proj1 (config_enc_params_intra_period (init_mem init_ok) defaults
                  avctx0 ltac:(unfold fits; cbn; lia)));
    [ reflexivity | unfold fits; cbn; lia ].
Defined.

Lemma config_enc_params_qp_bounds_witness :
  (configured Eb.max_qp_allowed = defaults Eb.max_qp_allowed /\
   configured Eb.min_qp_allowed = defaults Eb.min_qp_allowed) /\
  (let configured_vbr :=
     snd (fst (config_enc_params (init_mem init_ok) defaults avctx_vbr)) in
   configured_vbr Eb.max_qp_allowed = 48 /\
   configured_vbr Eb.min_qp_allowed = 10).
Proof.
  split.
  - apply (proj1 (config_enc_params_qp_bounds (init_mem init_ok) defaults
                    avctx0 ltac:(cbn; lia))); reflexivity.
  - apply (proj2 (config_enc_params_qp_bounds (init_mem init_ok) defaults
                    avctx_vbr ltac:(cbn; lia)));
      [ discriminate | unfold fits; cbn; lia .. ].
Defined.

Lemma eb_enc_init_success_state_witness :
  exists svt_enc,
    eb_enc_init init_ok avctx0
    = Some (0, svt_enc,
            [ eb_vp9_svt_init_handle;
              eb_vp9_svt_enc_set_parameter 4096 (enc_params svt_enc);
              eb_vp9_init_encoder 4096 ]) /\
    svt_handle svt_enc = 4096 /\
    eos_flag svt_enc = EOS_NOT_REACHED /\
    in_buf_ready svt_enc /\
    pool svt_enc = Some {| pool_size := raw_size svt_enc |}.
Proof.
  apply (eb_enc_init_success_state init_ok avctx0); reflexivity.
Defined.

Lemma eb_enc_init_failure_cleans_up_witness :
  exists svt_enc log,
    eb_enc_init init_bad_parameter avctx0
    = Some (AVERROR EINVAL, svt_enc, log) /\
    in_buf svt_enc = None /\ pool svt_enc = None /\
    last log eb_vp9_svt_init_handle = eb_vp9_deinit_handle 4096.
Proof.
  apply (eb_enc_init_failure_cleans_up init_bad_parameter avctx0);
    discriminate.
Defined.

Lemma eb_enc_init_empty_queue_reports_success_witness :
  exists svt_enc log,
    eb_enc_init init_empty_queue avctx0 = Some (0, svt_enc, log) /\
    in_buf svt_enc = None /\ pool svt_enc = None /\
    forall (env' : SendEnv) (frame : AVFrame.t),
      eb_send_frame env' (set_priv_data avctx0 svt_enc) (Some frame) = None.
Proof.
  apply (eb_enc_init_empty_queue_reports_success init_empty_queue avctx0);
    reflexivity.
Defined.

Lemma eb_enc_close_after_failed_init_witness :
  exists r svt_enc log svt_enc',
    eb_enc_init init_bad_parameter avctx0 = Some (r, svt_enc, log) /\
    In (eb_vp9_deinit_handle 4096) log /\
    eb_enc_close (set_priv_data avctx0 svt_enc)
    = Some (0, svt_enc',
            [eb_vp9_deinit_encoder 4096; eb_vp9_deinit_handle 4096]) /\
    in_buf svt_enc' = None /\ pool svt_enc' = None.
Proof.
  apply (eb_enc_close_after_failed_init init_bad_parameter avctx0);
    [ discriminate | reflexivity ].
Defined.

Lemma eb_receive_packet_empty_queue_witness :
  eb_receive_packet receive_nothing avctx1 pkt0
  = Some (AVERROR EAGAIN, priv_data avctx1, pkt0,
          [eb_vp9_svt_get_packet 4096 0]) /\
  AVERROR EAGAIN < 0.
Proof.
  apply (eb_receive_packet_empty_queue receive_nothing avctx1 pkt0);
    [ discriminate | reflexivity ].
Defined.

Lemma eb_receive_packet_eos_exact_witness :
  exists pkt',
    result (eb_receive_packet receive_eos avctx_draining pkt0)
    = Some (0, priv_data avctx_drained, pkt') /\
    priv_data avctx_drained
    = set_eos_flag (priv_data avctx_draining) EOS_TOTRIGGER.
Proof.
  eexists; split; [ reflexivity | ].
  exact (eb_receive_packet_eos_exact receive_eos avctx_draining pkt0 _ 0
           (priv_data avctx_drained) eq_refl).
Defined.

Lemma eb_receive_packet_releases_once_witness :
  let log := calls (eb_receive_packet receive_key avctx_draining pkt0) in
  filter is_release log = [eb_vp9_svt_release_out_buffer key_header] /\
  length (filter is_get_packet log) = 1%nat.
Proof.
  destruct (eb_receive_packet receive_key avctx_draining pkt0)
    as [[r log] | ] eqn:Hrun; [ | discriminate Hrun ].
  rewrite <- Hrun.
  apply (eb_receive_packet_releases_once receive_key avctx_draining pkt0 r).
  rewrite Hrun; reflexivity.
Defined.

Lemma eb_receive_packet_delivers_witness :
  exists svt_enc' pkt',
    eb_receive_packet receive_key avctx_draining pkt0
    = Some (0, svt_enc', pkt',
            [ eb_vp9_svt_get_packet 4096 1;
              av_buffer_pool_get (Some {| pool_size := 4608 |});
              eb_vp9_svt_release_out_buffer key_header ]) /\
    firstn 3 (AVPacket.data pkt') = [73; 68; 82] /\
    length (AVPacket.data pkt') = 4608%nat /\
    AVPacket.buf pkt' = Some {| ref_data := AVPacket.data pkt' |} /\
    AVPacket.size pkt' = 3 /\
    AVPacket.pts pkt' = 40 /\
    AVPacket.dts pkt' = 40.
Proof.
  apply (eb_receive_packet_delivers receive_key avctx_draining pkt0
           pool_buffer [73; 68; 82; 0]);
    solve [ discriminate | reflexivity ].
Defined.

Lemma eb_receive_packet_flags_witness :
  exists svt_enc' pkt',
    result (eb_receive_packet receive_key avctx_draining pkt0)
    = Some (0, svt_enc', pkt') /\
    has_bits (AVPacket.flags pkt') AV_PKT_FLAG_KEY /\
    has_bits (AVPacket.flags pkt') AV_PKT_FLAG_SVT_VP9_EXT_OFF.
Proof.
  eexists; eexists; split; [ reflexivity | ].
  match goal with
  | |- has_bits (AVPacket.flags ?p) _ /\ _ =>
      pose proof (eb_receive_packet_flags receive_key avctx_draining pkt0
                    p _ eq_refl) as (_ & Hkey & _ & Hext)
  end.
  split.
  - apply Hkey; [ cbn; lia | left; reflexivity ].
  - apply Hext; cbn; lia.
Defined.

Lemma eb_send_frame_descriptor_witness :
  exists header' in_data',
    eb_send_frame (send_env EB_ErrorNone) avctx1 (Some frame0)
    = Some (0, set_in_buf (priv_data avctx1) (Some header'),
            [eb_vp9_svt_enc_send_picture 4096 header']) /\
    p_buffer header' = input_data in_data' /\
    (luma in_data' = 65536 /\ cb in_data' = 69632 /\
     cr in_data' = 70656) /\
    (strides in_data' Eb.y_stride = 64 /\
     strides in_data' Eb.cb_stride = 32 /\
     strides in_data' Eb.cr_stride = 32) /\
    hdr header' Eb.flags = 0 /\
    hdr header' Eb.pts = 0 /\
    p_app_private header' = NULL.
Proof.
  exact (eb_send_frame_descriptor (send_env EB_ErrorNone) avctx1 frame0
           in_buf1 zeroed_input eq_refl eq_refl).
Defined.

Lemma eb_send_frame_n_filled_len_witness :
  exists header' svt_enc',
    result (eb_send_frame (send_env EB_ErrorNone) avctx1 (Some frame0))
    = Some (0, svt_enc') /\
    in_buf svt_enc' = Some header' /\
    hdr header' Eb.n_filled_len = 0 + 4608.
Proof.
  apply (eb_send_frame_n_filled_len (send_env EB_ErrorNone) avctx1 frame0
           in_buf1 zeroed_input);
    solve [ reflexivity | discriminate | unfold fits; cbn; lia ].
Defined.

Lemma run_same_setup_witness :
  run two_frames avctx1 = Some avctx_two_frames /\
  same_setup avctx1 avctx_two_frames.
Proof.
  assert (Hrun : run two_frames avctx1 = Some avctx_two_frames)
    by (vm_compute; reflexivity).
  split; [ exact Hrun | ].
  apply (run_same_setup two_frames avctx1 avctx_two_frames Hrun).
Defined.

Lemma eb_send_frame_defined_after_init_witness :
  exists svt_enc' header,
    eb_send_frame (send_env EB_ErrorNone) avctx_two_frames (Some frame0)
    = Some (0, svt_enc', [eb_vp9_svt_enc_send_picture 4096 header]).
Proof.
  destruct (eb_send_frame_defined_after_init init_ok avctx0 eq_refl)
    as (svt_enc & Hinit & Hsend).
  assert (Hctx : svt_enc = priv_data avctx1)
    by (vm_compute in Hinit; injection Hinit as <-; vm_compute; reflexivity).
  subst svt_enc.
  apply (Hsend two_frames avctx_two_frames (send_env EB_ErrorNone)
           (Some frame0)).
  vm_compute; reflexivity.
Defined.

Lemma run_after_trigger_witness :
  let cs := [receive_packet receive_key pkt0;
             receive_packet receive_nothing pkt0] in
  run cs avctx_drained = Some avctx_drained /\
  run_calls cs avctx_drained = [] /\
  eos_trace cs avctx_drained = [EOS_TOTRIGGER; EOS_TOTRIGGER].
Proof.
  intros cs; apply (run_after_trigger cs avctx_drained); reflexivity.
Defined.

Lemma run_calls_balance_witness :
  let log := run_calls two_frames avctx1 in
  (length (filter is_release log)
   <= length (filter is_get_packet log))%nat /\
  length (filter is_send_picture log) = 3%nat.
Proof.
  apply (run_calls_balance two_frames avctx1 avctx_two_frames).
  vm_compute; reflexivity.
Defined.

End MoreConcreteRuns.

